(** * The inventory system of [inventory_system.py]

    A shallow embedding of the class [InventorySystem] and proofs about its
    operations.  Python objects that the class mutates (the dictionaries)
    live in a heap of dict objects addressed by identity; the methods are
    written in a state-and-exception monad over that heap, the instance
    attribute [self._inventory] and the files the class reads and writes.

    Three things belong to the Python library and not to the class:
    - the text layer of [json]: a file is represented by the JSON document
      its text parses to, [json.load] maps a document to Python values and
      [json.dump] maps a [Dict[str, int]] to a document; what is kept of
      the text is the interpreter's limit on the decimal digits of an int
      it converts to text, which makes [json.dump] and [print] raise;
    - [ast.literal_eval]: a parameter of [load_data], about which nothing is
      assumed except where a statement says so;
    - the order of a dict: a dict is a finite map, its items come in some
      order on which no statement depends.

    [configure_logging] and the calls to the logger do not touch the store
    and are left out. *)

From Stdlib Require Import ZArith Ascii String.
From stdpp Require Import base option list strings gmap fin_maps.
From stdpp Require Import pretty sorting.

Local Open Scope Z_scope.
Set Warnings "-register-all,-clear-no-such-hyp".

(** ** Python values *)

(** Instances of [int].  [bool] is a subclass of [int] in Python, so
    [isinstance(True, int)] holds and [True] behaves as [1] in every
    comparison and arithmetic operation. *)
Inductive int_obj : Type :=
  | Int (z : Z)
  | Bool (b : bool).

Definition int_value (i : int_obj) : Z :=
  match i with
  | Int z => z
  | Bool b => if b then 1 else 0
  end.

(** The dynamically typed values that reach the class: arguments whose type
    the code tests with [isinstance], and what [json.load] and
    [ast.literal_eval] build.  A float carries its [repr] and an object of
    any other class (tuple, set, bytes, ...) the name of its class; the code
    never looks inside them. *)
Inductive value : Type :=
  | PyNone
  | PyInt (i : int_obj)
  | PyFloat (repr : string)
  | PyStr (s : string)
  | PyList (elems : list value)
  | PyDict (items : list (value * value))
  | PyOther (cls : string).

(** [isinstance(v, str)] and [isinstance(v, int)], returning the instance. *)
Definition as_str (v : value) : option string :=
  match v with PyStr s => Some s | _ => None end.

Definition as_int (v : value) : option int_obj :=
  match v with PyInt i => Some i | _ => None end.

(** ** Exceptions *)

Inductive exn : Type :=
  | ValueError (msg : string)
  | KeyError (msg : string)
  | SyntaxError (msg : string)
  | TypeError (msg : string)
  | MemoryError
  | RecursionError
  | FileNotFoundError (msg : string)
  | JSONDecodeError (msg : string).

(** [except (ValueError, SyntaxError)]: [json.JSONDecodeError] is a subclass
    of [ValueError]. *)
Definition is_ValueError_or_SyntaxError (e : exn) : bool :=
  match e with
  | ValueError _ | SyntaxError _ | JSONDecodeError _ => true
  | _ => false
  end.

Inductive outcome (A : Type) : Type :=
  | Return (a : A)
  | Raise (e : exn).
Arguments Return {A} a.
Arguments Raise {A} e.

(** ** JSON documents and files *)

(** A parsed JSON text.  An object keeps its members in textual order,
    repeated names included. *)
Inductive json : Type :=
  | JNull
  | JBool (b : bool)
  | JInt (z : Z)
  | JReal (repr : string)
  | JString (s : string)
  | JArray (elems : list json)
  | JObject (members : list (string * json)).

(** What a file holds, as far as [json.load] can tell: a JSON text, or
    bytes that [json.load] rejects with the given message. *)
Inductive file : Type :=
  | Undecodable (msg : string)
  | JsonText (doc : json).

(** ** The state of the program *)

(** Identity of a dict object. *)
Abbreviation loc := positive.

(** A [Dict[str, int]] object: keys are strings, values instances of
    [int]. *)
Abbreviation dict := (gmap string int_obj).

(** The instance: its only attribute is a reference to a dict. *)
Record InventorySystem : Type := { _inventory : loc }.

Record world : Type := World {
  self : InventorySystem;
  heap : gmap loc dict;
  files : gmap string file
}.

(** The dict object at [l], and the world after that object is replaced.
    Reading an identity that names no object gives the empty dict; this
    never happens once the instance is constructed. *)
Definition look (w : world) (l : loc) : dict :=
  default ∅ (heap w !! l).

Definition put (w : world) (l : loc) (d : dict) : world :=
  World (self w) (<[l := d]> (heap w)) (files w).

Definition set_self (w : world) (l : loc) : world :=
  World {| _inventory := l |} (heap w) (files w).

Definition set_files (w : world) (fs : gmap string file) : world :=
  World (self w) (heap w) fs.

(** The mapping the store currently holds. *)
Definition inventory_of (w : world) : dict :=
  look w (_inventory (self w)).

(** The instance has been constructed: its attribute refers to a live
    dict object. *)
Definition constructed (w : world) : Prop :=
  is_Some (heap w !! _inventory (self w)).

(** ** The state-and-exception monad *)

Definition M (A : Type) : Type := world → outcome A * world.

Definition ret {A} (a : A) : M A := λ w, (Return a, w).

Definition raise {A} (e : exn) : M A := λ w, (Raise e, w).

Definition bind {A B} (m : M A) (k : A → M B) : M B :=
  λ w, match m w with
       | (Return a, w') => k a w'
       | (Raise e, w') => (Raise e, w')
       end.

Declare Scope py_scope.
Delimit Scope py_scope with py.
Notation "x <- m ;; k" := (bind m (λ x, k))
  (at level 100, m at next level, right associativity) : py_scope.
Notation "m ;; k" := (bind m (λ _, k))
  (at level 100, right associativity) : py_scope.
Local Open Scope py_scope.

(** A [for] loop over a list, stopping at the first exception. *)
Fixpoint for_each {A} (l : list A) (body : A → M unit) : M unit :=
  match l with
  | [] => ret tt
  | x :: l' => body x ;; for_each l' body
  end.

(** *** Dict objects *)

(** The next unused identity. *)
Definition fresh_loc (h : gmap loc dict) : loc :=
  map_fold (λ l _ r, Pos.max (Pos.succ l) r) 1%positive h.

(** [{}] and [dict(d)]: a new dict object. *)
Definition new_dict (d : dict) : M loc :=
  λ w, let l := fresh_loc (heap w) in (Return l, put w l d).

Definition contents (l : loc) : M dict :=
  λ w, (Return (look w l), w).

Definition update (l : loc) (f : dict → dict) : M unit :=
  λ w, (Return tt, put w l (f (look w l))).

(** [k in d] *)
Definition dict_contains (l : loc) (k : string) : M bool :=
  d <- contents l ;; ret (bool_decide (is_Some (d !! k))).

(** [d.get(k, dflt)] *)
Definition dict_get (l : loc) (k : string) (dflt : int_obj) : M int_obj :=
  d <- contents l ;; ret (default dflt (d !! k)).

(** [d[k]] *)
Definition dict_getitem (l : loc) (k : string) : M int_obj :=
  d <- contents l ;;
  match d !! k with
  | Some v => ret v
  | None => raise (KeyError k)
  end.

(** [d[k] = v] *)
Definition dict_setitem (l : loc) (k : string) (v : int_obj) : M unit :=
  update l (insert k v).

(** [del d[k]] *)
Definition dict_delitem (l : loc) (k : string) : M unit :=
  d <- contents l ;;
  match d !! k with
  | Some _ => update l (delete k)
  | None => raise (KeyError k)
  end.

(** *** The attribute [self._inventory] *)

Definition get_inventory : M loc := λ w, (Return (_inventory (self w)), w).

Definition set_inventory (l : loc) : M unit :=
  λ w, (Return tt, set_self w l).

(** ** The class *)

(** [__init__]: [self._inventory = dict(initial or {})].  An empty dict is
    falsy, so [initial or {}] is a new empty dict both for [None] and for an
    empty [initial]; [dict(...)] then copies it into another new object. *)
Definition __init__ (initial : option loc) : M unit :=
  src <- match initial with
         | None => new_dict ∅
         | Some l =>
             d <- contents l ;;
             if bool_decide (d = ∅) then new_dict ∅ else ret l
         end ;;
  d <- contents src ;;
  l <- new_dict d ;;
  set_inventory l.

(** [add_item] *)
Definition add_item (name qty : value) : M unit :=
  match as_str name with
  | None => raise (ValueError "name must be a non-empty string")
  | Some n =>
    if bool_decide (n = EmptyString) then
      raise (ValueError "name must be a non-empty string")
    else
      match as_int qty with
      | None => raise (ValueError "qty must be a positive integer")
      | Some q =>
        if bool_decide (int_value q ≤ 0) then
          raise (ValueError "qty must be a positive integer")
        else
          inv <- get_inventory ;;
          prev <- dict_get inv n (Int 0) ;;
          dict_setitem inv n (Int (int_value prev + int_value q))
      end
  end.

(** [remove_item].  The code does not test the type of [name]; it is a
    string, as the signature says. *)
Definition remove_item (name : string) (qty : value) : M unit :=
  match as_int qty with
  | None => raise (ValueError "qty must be a positive integer")
  | Some q =>
    if bool_decide (int_value q ≤ 0) then
      raise (ValueError "qty must be a positive integer")
    else
      inv <- get_inventory ;;
      present <- dict_contains inv name ;;
      if negb present then
        raise (KeyError ("item '" +:+ name +:+ "' not found"))
      else
        cur <- dict_getitem inv name ;;
        if bool_decide (int_value cur < int_value q) then
          raise (ValueError "not enough quantity to remove")
        else
          cur <- dict_getitem inv name ;;
          dict_setitem inv name (Int (int_value cur - int_value q)) ;;
          now <- dict_getitem inv name ;;
          if bool_decide (int_value now = 0) then dict_delitem inv name
          else ret tt
  end.

(** [get_qty] *)
Definition get_qty (name : string) : M Z :=
  inv <- get_inventory ;;
  v <- dict_get inv name (Int 0) ;;
  ret (int_value v).

(** [check_low_items]: the comprehension runs over
    [self._inventory.items()]. *)
Definition check_low_items (threshold : value) : M (list string) :=
  match as_int threshold with
  | None => raise (ValueError "threshold must be a non-negative integer")
  | Some t =>
    if bool_decide (int_value t < 0) then
      raise (ValueError "threshold must be a non-negative integer")
    else
      inv <- get_inventory ;;
      d <- contents inv ;;
      ret (fst <$> filter (λ item, int_value item.2 ≤ int_value t)
                          (map_to_list d))
  end.

(** [as_dict]: [dict(self._inventory)], a new object. *)
Definition as_dict : M loc :=
  inv <- get_inventory ;;
  d <- contents inv ;;
  new_dict d.

(** *** The [json] module, on parsed documents *)

(** Assignment [d[k] = v] on the items of a dict under construction: a key
    already present keeps its place and takes the new value. *)
Fixpoint items_set {A} (k : string) (v : A) (items : list (string * A))
  : list (string * A) :=
  match items with
  | [] => [(k, v)]
  | (k', v') :: rest =>
      if bool_decide (k = k') then (k, v) :: rest
      else (k', v') :: items_set k v rest
  end.

(** The dict [json.load] makes of an object: members are assigned in order,
    so the last of several equal names wins. *)
Definition object_items {A} (members : list (string * A)) : list (string * A) :=
  fold_left (λ items m, items_set m.1 m.2 items) members [].

(** [json.load], from the parsed text to the Python value. *)
Fixpoint json_load (j : json) : value :=
  match j with
  | JNull => PyNone
  | JBool b => PyInt (Bool b)
  | JInt z => PyInt (Int z)
  | JReal r => PyFloat r
  | JString s => PyStr s
  | JArray elems => PyList (map json_load elems)
  | JObject members =>
      PyDict (map (λ item, (PyStr item.1, item.2))
                  (object_items (map (λ m, (m.1, json_load m.2)) members)))
  end.

(** [json.dump] of a [Dict[str, int]]: [True] and [False] are written as
    [true] and [false], every other int as a number. *)
Definition json_of_int (i : int_obj) : json :=
  match i with
  | Int z => JInt z
  | Bool b => JBool b
  end.

Definition json_dump (d : dict) : json :=
  JObject (map (λ item, (item.1, json_of_int item.2)) (map_to_list d)).

(** *** Files *)

(** [path.exists()] and [json.load(fh)] on the opened file. *)
Definition read_json (filepath : string) : M value :=
  λ w, match files w !! filepath with
       | None => (Raise (FileNotFoundError (filepath +:+ " not found")), w)
       | Some (Undecodable msg) => (Raise (JSONDecodeError msg), w)
       | Some (JsonText doc) => (Return (json_load doc), w)
       end.

(** Writing a file.  The files are kept under the path as the caller
    spells it.  Which spellings name one file ([inventory.json] and
    [./inventory.json], a link, an absolute path) is decided by the
    operating system and is not modelled: a write through one spelling is
    only ever related to a read through the same spelling. *)
Definition write_file (filepath : string) (f : file) : M unit :=
  λ w, (Return tt, set_files w (<[filepath := f]> (files w))).

(** The interpreter converts an int to decimal text only up to
    [sys.get_int_max_str_digits()] digits, 4300 unless reconfigured, and
    raises [ValueError] beyond.  [True] and [False] are written as words. *)
Definition int_str_limit : Z := 10 ^ 4300.

Definition int_str_ok (i : int_obj) : bool :=
  match i with
  | Int z => bool_decide (Z.abs z < int_str_limit)
  | Bool _ => true
  end.

(** The [ValueError] of a conversion beyond the limit. *)
Definition digits_error : exn :=
  ValueError
    "Exceeds the limit (4300 digits) for integer string conversion; use sys.set_int_max_str_digits() to increase the limit".

(** [json.dump] can write every quantity of [d]. *)
Definition dumpable (d : dict) : bool :=
  forallb (λ item, int_str_ok item.2) (map_to_list d).

(** [save_data].  Opening the file for writing is taken to succeed and
    empties the file.  [json.dump] writes the text piece by piece: when the
    conversion of a quantity raises, the file is left with the beginning of
    a text, which [json.load] rejects with "Expecting value". *)
Definition save_data (filepath : string) : M unit :=
  inv <- get_inventory ;;
  d <- contents inv ;;
  if dumpable d then write_file filepath (JsonText (json_dump d))
  else
    write_file filepath (Undecodable "Expecting value") ;;
    raise digits_error.

Section load.

(** [ast.literal_eval], a function of the Python library: what it returns
    or raises on each string. *)
Variable literal_eval : string → outcome value.

(** The body of the loop of [load_data] (lines 96-111), for one item of
    [data] and the dict [normalized] under construction. *)
Definition load_item (normalized : loc) (item : value * value) : M unit :=
  let '(k, v) := item in
  match as_str k with
  | None => raise (ValueError "inventory keys must be strings")
  | Some key =>
    match as_int v with
    | Some i => dict_setitem normalized key i
    | None =>
      match as_str v with
      | Some s =>
        match literal_eval s with
        | Raise e =>
            if is_ValueError_or_SyntaxError e then
              raise (ValueError ("invalid quantity for item " +:+ key))
            else raise e
        | Return v_eval =>
            match as_int v_eval with
            | None => raise (ValueError ("invalid quantity for item " +:+ key))
            | Some i => dict_setitem normalized key i
            end
        end
      | None => raise (ValueError ("invalid quantity type for item " +:+ key))
      end
    end
  end.

(** [load_data] from the parsed [data] on (lines 90-113). *)
Definition load_parsed (data : value) : M unit :=
  match data with
  | PyDict items =>
      normalized <- new_dict ∅ ;;
      for_each items (load_item normalized) ;;
      set_inventory normalized
  | _ =>
      raise (ValueError
        "inventory file must contain a JSON object mapping names to integers")
  end.

(** [load_data] *)
Definition load_data (filepath : string) : M unit :=
  data <- read_json filepath ;;
  load_parsed data.

(** The value part of [load_item] as a function: the quantity kept for the
    value [v] of the item [key], or the exception raised. *)
Definition normalized_value (key : string) (v : value) : outcome int_obj :=
  match v with
  | PyInt i => Return i
  | PyStr s =>
      match literal_eval s with
      | Return (PyInt i) => Return i
      | Return _ => Raise (ValueError ("invalid quantity for item " +:+ key))
      | Raise e =>
          if is_ValueError_or_SyntaxError e then
            Raise (ValueError ("invalid quantity for item " +:+ key))
          else Raise e
      end
  | _ => Raise (ValueError ("invalid quantity type for item " +:+ key))
  end.

End load.

(** [ast.literal_eval] on signed decimal integer literals.  Every other
    string is rejected as a malformed node, which is what the library does
    with an identifier such as [abc] but not with the other literal forms
    (floats, lists, [True], ...): this function stands for the library only
    at decimal literals and identifiers. *)
Fixpoint decimal (s : string) (acc : Z) : option Z :=
  match s with
  | EmptyString => Some acc
  | String c rest =>
      let n := Z.of_N (Ascii.N_of_ascii c) in
      if bool_decide (48 ≤ n ≤ 57) then decimal rest (10 * acc + (n - 48))
      else None
  end.

(** A decimal integer literal: digits, with no leading zero unless the
    number is zero. *)
Definition decimal_literal (s : string) : option Z :=
  match s with
  | EmptyString => None
  | String c _ =>
      match decimal s 0 with
      | Some z =>
          if bool_decide (c = "0"%char) && negb (bool_decide (z = 0)) then None
          else Some z
      | None => None
      end
  end.

Definition literal_eval_decimal (s : string) : outcome value :=
  match s with
  | String "-"%char digits =>
      match decimal_literal digits with
      | Some z => Return (PyInt (Int (- z)))
      | None => Raise (ValueError "malformed node or string")
      end
  | _ =>
      match decimal_literal s with
      | Some z => Return (PyInt (Int z))
      | None => Raise (ValueError "malformed node or string")
      end
  end.

(** ** Vocabulary of the statements *)

(** The quantity on record for a name: the stored value, or 0. *)
Definition quantity (w : world) (name : string) : Z :=
  int_value (default (Int 0) (inventory_of w !! name)).

(** The inputs [add_item] accepts, in the words of its contract. *)
Definition valid_name (name : value) : Prop :=
  ∃ s, name = PyStr s ∧ s ≠ EmptyString.

Definition positive_integer (qty : value) : Prop :=
  ∃ i, qty = PyInt i ∧ 0 < int_value i.

(** The names the comprehension of [check_low_items] collects. *)
Definition low_items (d : dict) (t : Z) : list string :=
  (filter (λ item : string * int_obj, int_value item.2 ≤ t) (map_to_list d)).*1.


(** Every key is a non-empty string and every quantity is an integer
    greater than 0. *)
Definition store_invariant (d : dict) : Prop :=
  ∀ k v, d !! k = Some v → k ≠ EmptyString ∧ 0 < int_value v.

(** [w'] differs from [w] at most in the dict object [l]. *)
Definition same_but (l : loc) (w w' : world) : Prop :=
  self w' = self w ∧ files w' = files w ∧
  ∀ l', l' ≠ l → heap w' !! l' = heap w !! l'.

(** *** Sample worlds *)

(** Before the instance exists: no object, no file. *)
Definition empty_world : world := World {| _inventory := 1%positive |} ∅ ∅.

(** [inv = InventorySystem()] *)
Definition new_store : world := (__init__ None empty_world).2.

(** [inv = InventorySystem(); inv.add_item("x", 5)] *)
Definition store_x5 : world :=
  (add_item (PyStr "x") (PyInt (Int 5)) new_store).2.

(** [inv = InventorySystem(); inv.add_item("a", 3); inv.add_item("b", 5);
    inv.add_item("c", 6)] *)
Definition store_abc : world :=
  ((add_item (PyStr "a") (PyInt (Int 3)) ;;
    add_item (PyStr "b") (PyInt (Int 5)) ;;
    add_item (PyStr "c") (PyInt (Int 6))) new_store).2.


(** The store [store_x5] next to a file [inventory.json] holding [doc]. *)
Definition with_file (doc : json) : world :=
  set_files store_x5 {[ "inventory.json" := JsonText doc ]}.

(** A caller's dict at identity 7, with quantity 0 under the empty name
    and -2 under [x], before the instance is created. *)
Definition world_with_initial : world :=
  World {| _inventory := 1%positive |}
        {[ 7%positive := {[ EmptyString := Int 0; "x" := Int (-2) ]} ]} ∅.

(** ** The rest of the class *)

(** [str(qty)] for an instance of [int]. *)
Definition str_of_int (i : int_obj) : string :=
  match i with
  | Int z => pretty z
  | Bool true => "True"
  | Bool false => "False"
  end.

(** The order [sorted] compares the items with: tuples are compared
    component by component, names first.  Python compares strings code
    point by code point; a string here is the sequence of its bytes, and
    on UTF-8 the two orders agree. *)
Definition item_le (a b : string * int_obj) : Prop :=
  String.ltb a.1 b.1 = true ∨ (a.1 = b.1 ∧ int_value a.2 ≤ int_value b.2).

(** The loop of [print_data]: the lines printed, one [print] call each, and
    how the loop ends.  The f-string converts the quantity to text, which
    raises beyond the digit limit; the lines printed before stay printed. *)
Fixpoint print_items (items : list (string * int_obj))
  : list string * outcome unit :=
  match items with
  | [] => ([], Return tt)
  | (name, qty) :: rest =>
      if int_str_ok qty then
        let '(lines, o) := print_items rest in
        ((name +:+ ": " +:+ str_of_int qty) :: lines, o)
      else ([], Raise digits_error)
  end.

(** [print_data]: what it prints, in the order of
    [sorted(self._inventory.items())], and its outcome. *)
Definition print_data : world → (list string * outcome unit) * world :=
  λ w, match (inv <- get_inventory ;; contents inv) w with
       | (Return d, w') =>
           (print_items (merge_sort item_le (map_to_list d)), w')
       | (Raise e, w') => (([], Raise e), w')
       end.

(** ** Clients *)

(** A call of one of the methods that take no file to read. *)
Inductive op : Type :=
  | Add (name qty : value)
  | Remove (name : string) (qty : value)
  | GetQty (name : string)
  | CheckLow (threshold : value)
  | AsDict
  | Save (filepath : string)
  | Print.

Definition perform (o : op) : M unit :=
  match o with
  | Add name qty => add_item name qty
  | Remove name qty => remove_item name qty
  | GetQty name => get_qty name ;; ret tt
  | CheckLow threshold => check_low_items threshold ;; ret tt
  | AsDict => as_dict ;; ret tt
  | Save filepath => save_data filepath
  | Print => λ w, let '((_, o), w') := print_data w in (o, w')
  end.

(** A client that makes the calls one after the other and carries on after
    an exception: the calls that returned, and the final world. *)
Fixpoint run_ops (ops : list op) (w : world) : list op * world :=
  match ops with
  | [] => ([], w)
  | o :: rest =>
      match perform o w with
      | (Return _, w') => let '(done, w'') := run_ops rest w' in (o :: done, w'')
      | (Raise _, w') => run_ops rest w'
      end
  end.

(** What a call that returned adds to the quantity of [n]. *)
Definition delta (n : string) (o : op) : Z :=
  match o with
  | Add (PyStr m) (PyInt q) => if bool_decide (m = n) then int_value q else 0
  | Remove m (PyInt q) => if bool_decide (m = n) then - int_value q else 0
  | _ => 0
  end.

Definition total_delta (n : string) (ops : list op) : Z :=
  foldr (λ o acc, delta n o + acc) 0 ops.

(** The loop of [load_data] as a function of the dict under construction:
    the outcome of the loop and the dict it has built when it stops. *)
Fixpoint normalize_items (literal_eval : string → outcome value)
    (items : list (value * value)) (d : dict) : outcome unit * dict :=
  match items with
  | [] => (Return tt, d)
  | (k, v) :: rest =>
      match as_str k with
      | None => (Raise (ValueError "inventory keys must be strings"), d)
      | Some key =>
          match normalized_value literal_eval key v with
          | Return i => normalize_items literal_eval rest (<[key := i]> d)
          | Raise e => (Raise e, d)
          end
      end
  end.

(** ** Proofs *)

(** *** The heap *)

Lemma fresh_loc_above (h : gmap loc dict) (l : loc) :
  is_Some (h !! l) → (l < fresh_loc h)%positive.
Proof.
  unfold fresh_loc.
  apply (map_fold_weak_ind
    (λ r (m : gmap loc dict), is_Some (m !! l) → (l < r)%positive)).
  - intros [? H]. by rewrite lookup_empty in H.
  - intros i x m r Hi IH Hl.
    destruct (decide (i = l)) as [->|Hne].
    + lia.
    + rewrite lookup_insert_ne in Hl by done. specialize (IH Hl). lia.
Qed.

Lemma fresh_loc_fresh (h : gmap loc dict) : h !! fresh_loc h = None.
Proof.
  destruct (h !! fresh_loc h) eqn:E; [|done].
  assert (is_Some (h !! fresh_loc h)) as H by eauto.
  apply fresh_loc_above in H. lia.
Qed.

Lemma fresh_loc_ne (h : gmap loc dict) (l : loc) :
  is_Some (h !! l) → fresh_loc h ≠ l.
Proof. intros H%fresh_loc_above. lia. Qed.

Lemma look_put_eq (w : world) (l : loc) (d : dict) : look (put w l d) l = d.
Proof. unfold look, put. simpl. by rewrite lookup_insert_eq. Qed.

Lemma look_put_ne (w : world) (l l' : loc) (d : dict) :
  l ≠ l' → look (put w l d) l' = look w l'.
Proof. intros H. unfold look, put. simpl. by rewrite lookup_insert_ne. Qed.

Lemma put_put (w : world) (l : loc) (d d' : dict) :
  put (put w l d) l d' = put w l d'.
Proof. unfold put. simpl. by rewrite insert_insert_eq. Qed.

Lemma inventory_of_put (w : world) (d : dict) :
  inventory_of (put w (_inventory (self w)) d) = d.
Proof. unfold inventory_of. simpl. apply look_put_eq. Qed.

Lemma inventory_of_set_self (w : world) (l : loc) :
  inventory_of (set_self w l) = look w l.
Proof. done. Qed.

Lemma self_put (w : world) (l : loc) (d : dict) : self (put w l d) = self w.
Proof. done. Qed.

Lemma heap_put (w : world) (l : loc) (d : dict) :
  heap (put w l d) = <[l := d]> (heap w).
Proof. done. Qed.

Lemma self_set_self (w : world) (l : loc) : _inventory (self (set_self w l)) = l.
Proof. done. Qed.

Lemma constructed_put (w : world) (l : loc) (d : dict) :
  constructed w → constructed (put w l d).
Proof.
  unfold constructed. rewrite self_put, heap_put. intros H.
  rewrite lookup_insert. case_decide; eauto.
Qed.

Arguments look : simpl never.
Arguments put : simpl never.
Arguments set_self : simpl never.
Arguments set_files : simpl never.

(** Running the monad: unfold the operations down to functions of the
    world. *)
Ltac run :=
  unfold get_qty, dict_contains, dict_get, dict_getitem, dict_setitem,
    dict_delitem, get_inventory, set_inventory, contents, update, new_dict,
    write_file, bind, ret, raise in *;
  simpl in *;
  rewrite ?look_put_eq, ?put_put in *.

(** *** [remove_item] *)

(** What [remove_item] does, case by case, on the mapping it finds. *)
Lemma remove_item_run (w : world) (name : string) (qty : value) :
  remove_item name qty w =
  match as_int qty with
  | None => (Raise (ValueError "qty must be a positive integer"), w)
  | Some q =>
    if bool_decide (int_value q ≤ 0) then
      (Raise (ValueError "qty must be a positive integer"), w)
    else
      match inventory_of w !! name with
      | None => (Raise (KeyError ("item '" +:+ name +:+ "' not found")), w)
      | Some cur =>
        if bool_decide (int_value cur < int_value q) then
          (Raise (ValueError "not enough quantity to remove"), w)
        else
          (Return tt,
           put w (_inventory (self w))
             (if bool_decide (int_value cur - int_value q = 0)
              then delete name (inventory_of w)
              else <[name := Int (int_value cur - int_value q)]>
                     (inventory_of w)))
      end
  end.
Proof.
  unfold remove_item, inventory_of.
  destruct (as_int qty) as [q|]; [|done].
  destruct (bool_decide (int_value q ≤ 0)) eqn:Hq; [done|].
  run.
  destruct (look w (_inventory (self w)) !! name) as [cur|] eqn:Hcur.
  2: { rewrite bool_decide_eq_false_2; [done|apply is_Some_None]. }
  rewrite bool_decide_eq_true_2 by eauto. simpl. rewrite Hcur.
  destruct (bool_decide (int_value cur < int_value q)) eqn:Hlt; [done|].
  rewrite Hcur. run. rewrite lookup_insert_eq. cbn [int_value].
  destruct (bool_decide (int_value cur - int_value q = 0)) eqn:Hz; [|done].
  rewrite look_put_eq, lookup_insert_eq. run. by rewrite delete_insert_eq.
Qed.

(** *** [add_item], [get_qty], [__init__] *)

Lemma get_qty_run (w : world) (name : string) :
  get_qty name w = (Return (quantity w name), w).
Proof. done. Qed.

Lemma add_item_run (w : world) (name qty : value) :
  add_item name qty w =
  match as_str name with
  | None => (Raise (ValueError "name must be a non-empty string"), w)
  | Some n =>
    if bool_decide (n = EmptyString) then
      (Raise (ValueError "name must be a non-empty string"), w)
    else
      match as_int qty with
      | None => (Raise (ValueError "qty must be a positive integer"), w)
      | Some q =>
        if bool_decide (int_value q ≤ 0) then
          (Raise (ValueError "qty must be a positive integer"), w)
        else
          (Return tt,
           put w (_inventory (self w))
             (<[n := Int (quantity w n + int_value q)]> (inventory_of w)))
      end
  end.
Proof.
  unfold add_item.
  destruct (as_str name) as [n|]; [|done].
  destruct (bool_decide (n = EmptyString)); [done|].
  destruct (as_int qty) as [q|]; [|done].
  by destruct (bool_decide (int_value q ≤ 0)).
Qed.

Lemma init_None_run (w : world) :
  ∃ w', __init__ None w = (Return tt, w') ∧
        inventory_of w' = ∅ ∧ constructed w' ∧ files w' = files w ∧
        ∀ l, is_Some (heap w !! l) →
             heap w' !! l = heap w !! l ∧ _inventory (self w') ≠ l.
Proof.
  unfold __init__. run. unfold inventory_of, constructed, look, set_self, put.
  simpl.
  set (l1 := fresh_loc (heap w)).
  set (h1 := <[l1 := ∅]> (heap w)).
  set (l2 := fresh_loc h1).
  eexists. split; [done|].
  assert (∀ l, is_Some (heap w !! l) → is_Some (h1 !! l)) as Hh1.
  { intros l Hl. unfold h1. rewrite lookup_insert. case_decide; eauto. }
  assert (∀ l, is_Some (heap w !! l) → l1 ≠ l) as Hl1.
  { intros l Hl. by apply fresh_loc_ne. }
  assert (∀ l, is_Some (heap w !! l) → l2 ≠ l) as Hl2.
  { intros l Hl. apply fresh_loc_ne. auto. }
  cbn [heap self files _inventory].
  rewrite lookup_insert_eq. simpl. repeat split; eauto.
  unfold h1. rewrite !lookup_insert_ne; auto.
Qed.

Lemma as_dict_run (w : world) :
  as_dict w =
  (Return (fresh_loc (heap w)), put w (fresh_loc (heap w)) (inventory_of w)).
Proof. done. Qed.

(** *** [__init__] *)

Lemma init_Some_run (w : world) (l : loc) (d : dict) :
  heap w !! l = Some d →
  ∃ w', __init__ (Some l) w = (Return tt, w') ∧
        constructed w' ∧ inventory_of w' = d ∧
        _inventory (self w') ≠ l ∧ heap w' !! l = Some d.
Proof.
  intros Hl. unfold __init__, bind at 1. unfold bind at 1, contents.
  assert (look w l = d) as Hlook by (unfold look; by rewrite Hl).
  rewrite Hlook.
  assert (fresh_loc (heap w) ≠ l) as Hne1 by (apply fresh_loc_ne; eauto).
  case_bool_decide as Hd.
  - unfold new_dict at 1. cbn zeta.
    set (l1 := fresh_loc (heap w)) in *. set (w1 := put w l1 ∅).
    unfold bind, new_dict, set_inventory. cbn zeta.
    replace (look w1 l1) with (∅ : dict) by (unfold w1; by rewrite look_put_eq).
    set (l2 := fresh_loc (heap w1)).
    assert (heap w1 !! l = Some d) as Hl1.
    { unfold w1. rewrite heap_put. by rewrite lookup_insert_ne. }
    assert (l2 ≠ l) as Hne2 by (apply fresh_loc_ne; eauto).
    eexists. split; [done|]. split_and!.
    + unfold constructed. rewrite self_set_self. unfold set_self, put. simpl.
      rewrite lookup_insert_eq. eauto.
    + by rewrite inventory_of_set_self, look_put_eq.
    + by rewrite self_set_self.
    + unfold set_self. cbn [heap]. rewrite heap_put.
      by rewrite lookup_insert_ne.
  - unfold ret, bind, new_dict, set_inventory. cbn zeta. rewrite Hlook.
    set (l2 := fresh_loc (heap w)) in *.
    eexists. split; [done|]. split_and!.
    + unfold constructed. rewrite self_set_self. unfold set_self, put. simpl.
      rewrite lookup_insert_eq. eauto.
    + by rewrite inventory_of_set_self, look_put_eq.
    + by rewrite self_set_self.
    + unfold set_self. cbn [heap]. rewrite heap_put.
      by rewrite lookup_insert_ne.
Qed.

(** *** [check_low_items] *)

Lemma check_low_items_run (w : world) (threshold : value) :
  check_low_items threshold w =
  match as_int threshold with
  | None => (Raise (ValueError "threshold must be a non-negative integer"), w)
  | Some t =>
    if bool_decide (int_value t < 0) then
      (Raise (ValueError "threshold must be a non-negative integer"), w)
    else (Return (low_items (inventory_of w) (int_value t)), w)
  end.
Proof.
  unfold check_low_items.
  destruct (as_int threshold) as [t|]; [|done].
  by destruct (bool_decide (int_value t < 0)).
Qed.

Lemma NoDup_low_items (d : dict) (t : Z) : NoDup (low_items d t).
Proof.
  unfold low_items.
  eapply sublist_NoDup; [apply (NoDup_fst_map_to_list d)|].
  apply fmap_sublist, sublist_filter.
Qed.

Lemma elem_of_low_items (d : dict) (t : Z) (n : string) :
  n ∈ low_items d t ↔ ∃ q, d !! n = Some q ∧ int_value q ≤ t.
Proof.
  unfold low_items. rewrite list_elem_of_fmap. split.
  - intros ([k q] & -> & [Hq Hin%elem_of_map_to_list]%list_elem_of_filter).
    eauto.
  - intros (q & Hq & Hle). exists (n, q). split; [done|].
    apply list_elem_of_filter. split; [done|]. by apply elem_of_map_to_list.
Qed.

(** *** The invariant of the data model *)

Lemma store_invariant_empty : store_invariant ∅.
Proof. intros k v H. by rewrite lookup_empty in H. Qed.

Lemma store_invariant_insert (d : dict) (k : string) (v : int_obj) :
  store_invariant d → k ≠ EmptyString → 0 < int_value v →
  store_invariant (<[k := v]> d).
Proof.
  intros Hd Hk Hv k' v'. rewrite lookup_insert. case_decide.
  - intros [= <-]. by subst.
  - apply Hd.
Qed.

Lemma store_invariant_delete (d : dict) (k : string) :
  store_invariant d → store_invariant (delete k d).
Proof.
  intros Hd k' v'. rewrite lookup_delete. case_decide; [done|apply Hd].
Qed.

Lemma inventory_of_new_object (w : world) (d : dict) :
  constructed w → inventory_of (put w (fresh_loc (heap w)) d) = inventory_of w.
Proof.
  intros Hc. unfold inventory_of. rewrite self_put.
  apply look_put_ne. by apply fresh_loc_ne.
Qed.

(** *** [json.dump] followed by [json.load] *)

Lemma items_set_fresh {A} (k : string) (v : A) (items : list (string * A)) :
  k ∉ items.*1 → items_set k v items = items ++ [(k, v)].
Proof.
  induction items as [|[k' v'] items IH]; simpl; [done|].
  intros Hk. apply not_elem_of_cons in Hk as [Hne Hk].
  rewrite bool_decide_eq_false_2 by done. by rewrite IH.
Qed.

Lemma object_items_app_NoDup {A} (members acc : list (string * A)) :
  NoDup ((acc ++ members).*1) →
  fold_left (λ items m, items_set m.1 m.2 items) members acc = acc ++ members.
Proof.
  revert acc. induction members as [|[k v] members IH]; intros acc Hnd; simpl.
  - by rewrite app_nil_r.
  - rewrite items_set_fresh.
    + rewrite IH; rewrite <- app_assoc; done.
    + rewrite fmap_app in Hnd. apply NoDup_app in Hnd as (_ & Hnd & _).
      intros Hk. apply (Hnd k Hk). simpl. left.
Qed.

Lemma object_items_NoDup {A} (members : list (string * A)) :
  NoDup (members.*1) → object_items members = members.
Proof. intros H. unfold object_items. by rewrite object_items_app_NoDup. Qed.

(** The value [json.load] makes of what [json.dump] wrote for [d]: the
    items of [d], quantities unchanged. *)
Lemma json_load_dump (d : dict) :
  json_load (json_dump d) =
  PyDict ((λ item, (PyStr item.1, PyInt item.2)) <$> map_to_list d).
Proof.
  unfold json_dump. simpl. f_equal.
  rewrite map_map.
  rewrite (map_ext _ (λ item : string * int_obj, (item.1, PyInt item.2))).
  2: { intros [k []]; done. }
  rewrite object_items_NoDup.
  - rewrite map_map. done.
  - pose proof (NoDup_fst_map_to_list d) as Hnd.
    induction (map_to_list d) as [|[k i] l IH]; [done|].
    simpl in *. apply NoDup_cons in Hnd as [Hk Hnd].
    apply NoDup_cons. split; [|by apply IH].
    clear IH Hnd. induction l as [|[k' i'] l IH]; [done|].
    simpl in *. apply not_elem_of_cons in Hk as [Hne Hk].
    apply not_elem_of_cons. split; [done|by apply IH].
Qed.

Lemma foldl_insert_NoDup (l : list (string * int_obj)) (m : dict) :
  NoDup (l.*1) →
  fold_left (λ d item, <[item.1 := item.2]> d) l m = list_to_map l ∪ m.
Proof.
  revert m. induction l as [|[k v] l IH]; intros m Hnd; simpl.
  - by rewrite (left_id_L ∅ (∪)).
  - apply NoDup_cons in Hnd as [Hk Hnd].
    rewrite IH by done.
    rewrite <- insert_union_r by (by apply not_elem_of_list_to_map_1).
    by rewrite insert_union_l.
Qed.

Lemma foldl_insert_map_to_list (d : dict) :
  fold_left (λ m item, <[item.1 := item.2]> m) (map_to_list d) ∅ = d.
Proof.
  rewrite foldl_insert_NoDup by apply (NoDup_fst_map_to_list d).
  by rewrite list_to_map_to_list, (right_id_L ∅ (∪)).
Qed.

(** *** [save_data] and the digit limit *)




Lemma save_data_run (w : world) (filepath : string) :
  save_data filepath w =
  if dumpable (inventory_of w) then
    (Return tt,
     set_files w (<[filepath := JsonText (json_dump (inventory_of w))]>
                    (files w)))
  else
    (Raise digits_error,
     set_files w (<[filepath := Undecodable "Expecting value"]> (files w))).
Proof.
  unfold save_data, bind, get_inventory, contents, inventory_of.
  by destruct (dumpable (look w (_inventory (self w)))).
Qed.

Arguments int_str_limit : simpl never.

(** ** Statements about the operations *)

(** C1. Whenever [remove_item] raises, whatever the reason (quantity not a
    positive integer, name absent, stored quantity smaller than the
    requested one), the world after the call is the world before it, so the
    store's mapping is unchanged.  In particular, on a store that does not
    hold ["x"], after [add_item("x", 5)] the call [remove_item("x", 10)]
    raises [ValueError("not enough quantity to remove")] and [get_qty("x")]
    is still 5. *)
Theorem remove_item_failure_keeps_mapping :
  (∀ (w : world) (name : string) (qty : value) (e : exn) (w' : world),
     remove_item name qty w = (Raise e, w') →
     w' = w ∧ inventory_of w' = inventory_of w) ∧
  (∀ w : world,
     inventory_of w !! "x" = None →
     ∃ w1,
       add_item (PyStr "x") (PyInt (Int 5)) w = (Return tt, w1) ∧
       remove_item "x" (PyInt (Int 10)) w1 =
         (Raise (ValueError "not enough quantity to remove"), w1) ∧
       get_qty "x" w1 = (Return 5, w1)).
Proof.
  split.
  - intros w name qty e w' H. rewrite remove_item_run in H.
    destruct (as_int qty) as [q|]; [|by simplify_eq].
    destruct (bool_decide (int_value q ≤ 0)); [by simplify_eq|].
    destruct (inventory_of w !! name) as [cur|]; [|by simplify_eq].
    destruct (bool_decide (int_value cur < int_value q)); by simplify_eq.
  - intros w Hx. eexists. split; [by rewrite add_item_run|].
    rewrite remove_item_run, get_qty_run. unfold quantity.
    rewrite !inventory_of_put, Hx, lookup_insert_eq. done.
Qed.

Lemma remove_item_failure_keeps_mapping_witness :
  remove_item "x" (PyInt (Int 10)) store_x5 =
    (Raise (ValueError "not enough quantity to remove"), store_x5) ∧
  ∃ w1,
    add_item (PyStr "x") (PyInt (Int 5)) new_store = (Return tt, w1) ∧
    remove_item "x" (PyInt (Int 10)) w1 =
      (Raise (ValueError "not enough quantity to remove"), w1) ∧
    get_qty "x" w1 = (Return 5, w1).
Proof.
  assert (remove_item "x" (PyInt (Int 10)) store_x5 =
          (Raise (ValueError "not enough quantity to remove"),
           (remove_item "x" (PyInt (Int 10)) store_x5).2)) as H
    by (vm_compute; reflexivity).
  destruct (proj1 remove_item_failure_keeps_mapping _ _ _ _ _ H) as [Hw _].
  rewrite Hw in H. split; [exact H|].
  assert (inventory_of new_store !! "x" = None) as Hx
    by (vm_compute; reflexivity).
  exact (proj2 remove_item_failure_keeps_mapping _ Hx).
Defined.

(** C2. [add_item(name, qty)] raises exactly when [name] is not a non-empty
    string or [qty] is not a positive integer, the exception is then a
    [ValueError] and nothing changes; otherwise it returns, the quantity
    stored for [name] is the previous one (0 if absent) plus [qty], and no
    other entry changes.  [add_item] with the empty name, [add_item("x", 0)] and
    [add_item("x", -1)] raise [ValueError].  An [int] is any instance of
    [int]: Python's [True] counts as the positive integer 1. *)
Theorem add_item_contract :
  (∀ (w : world) (name qty : value),
     match add_item name qty w with
     | (Raise e, w') =>
         (¬ valid_name name ∨ ¬ positive_integer qty) ∧
         (∃ msg, e = ValueError msg) ∧ w' = w
     | (Return _, w') =>
         ∃ s i, name = PyStr s ∧ s ≠ EmptyString ∧ qty = PyInt i ∧ 0 < int_value i ∧
           inventory_of w' =
             <[s := Int (quantity w s + int_value i)]> (inventory_of w) ∧
           get_qty s w' = (Return (quantity w s + int_value i), w') ∧
           ∀ n, n ≠ s → inventory_of w' !! n = inventory_of w !! n
     end) ∧
  (∀ w : world,
     add_item (PyStr EmptyString) (PyInt (Int 1)) w =
       (Raise (ValueError "name must be a non-empty string"), w) ∧
     add_item (PyStr "x") (PyInt (Int 0)) w =
       (Raise (ValueError "qty must be a positive integer"), w) ∧
     add_item (PyStr "x") (PyInt (Int (-1))) w =
       (Raise (ValueError "qty must be a positive integer"), w) ∧
     add_item (PyStr "x") (PyInt (Bool true)) w =
       (Return tt,
        put w (_inventory (self w))
          (<["x" := Int (quantity w "x" + 1)]> (inventory_of w)))).
Proof.
  split; [|done].
  intros w name qty. rewrite add_item_run.
  destruct (as_str name) as [n|] eqn:Hn.
  2: { split_and!; eauto. left. intros (s & -> & _). discriminate. }
  destruct name; try discriminate. simpl in Hn. simplify_eq.
  case_bool_decide as Hempty.
  { split_and!; eauto. left. intros (s & ? & ?). simplify_eq. }
  destruct (as_int qty) as [q|] eqn:Hq.
  2: { split_and!; eauto. right. intros (i & -> & _). discriminate. }
  destruct qty; try discriminate. simpl in Hq. simplify_eq.
  case_bool_decide as Hle.
  { split_and!; eauto. right. intros (i & ? & ?). simplify_eq. lia. }
  exists n, q. rewrite get_qty_run. unfold quantity at 3.
  rewrite inventory_of_put, lookup_insert_eq.
  split_and!; try done; [lia|].
  intros m Hm. by rewrite lookup_insert_ne.
Qed.

(** C3. With a positive integer quantity, [remove_item] raises [KeyError]
    when the name is absent.  When it returns, the stored quantity was at
    least the requested one and is decremented by it, other entries are
    untouched, and when the result is exactly 0 the entry is deleted:
    [get_qty] returns 0 and the name is not in the copy [as_dict] returns.
    Adding an absent item and removing the same quantity gives back the
    mapping the store had before the item was added. *)
Theorem remove_item_contract (w : world) (name : string) (q : int_obj) :
  0 < int_value q →
  (inventory_of w !! name = None →
   remove_item name (PyInt q) w =
     (Raise (KeyError ("item '" +:+ name +:+ "' not found")), w)) ∧
  (∀ w', remove_item name (PyInt q) w = (Return tt, w') →
     ∃ cur, inventory_of w !! name = Some cur ∧
       int_value q ≤ int_value cur ∧
       get_qty name w' = (Return (int_value cur - int_value q), w') ∧
       (∀ n, n ≠ name → inventory_of w' !! n = inventory_of w !! n) ∧
       (int_value cur ≠ int_value q →
        inventory_of w' !! name = Some (Int (int_value cur - int_value q))) ∧
       (int_value cur = int_value q →
        inventory_of w' = delete name (inventory_of w) ∧
        get_qty name w' = (Return 0, w') ∧
        ∃ l w'', as_dict w' = (Return l, w'') ∧
                 look w'' l = inventory_of w' ∧ look w'' l !! name = None)) ∧
  (name ≠ EmptyString → inventory_of w !! name = None →
   ∃ w1 w2, add_item (PyStr name) (PyInt q) w = (Return tt, w1) ∧
            remove_item name (PyInt q) w1 = (Return tt, w2) ∧
            inventory_of w2 = inventory_of w ∧
            get_qty name w2 = (Return 0, w2)).
Proof.
  intros Hq. split_and!.
  - intros Hn. rewrite remove_item_run. simpl.
    rewrite bool_decide_eq_false_2 by lia. by rewrite Hn.
  - intros w'. rewrite remove_item_run. simpl.
    rewrite bool_decide_eq_false_2 by lia.
    destruct (inventory_of w !! name) as [cur|] eqn:Hcur; [|done].
    case_bool_decide as Hlt; [done|].
    intros [= <-]. exists cur.
    rewrite get_qty_run, as_dict_run. unfold quantity.
    rewrite !inventory_of_put.
    case_bool_decide as Hz.
    + rewrite lookup_delete_eq. simpl. split_and!; try done; try lia.
      * by rewrite Hz.
      * intros n Hne. by rewrite lookup_delete_ne.
      * intros _. split_and!; try done. eexists _, _.
        split; [done|]. rewrite look_put_eq.
        split; [done|]. by rewrite lookup_delete_eq.
    + rewrite lookup_insert_eq. simpl. split_and!; try done; try lia.
      intros n Hne. by rewrite lookup_insert_ne.
  - intros Hne Hn.
    pose (w1 := put w (_inventory (self w))
                  (<[name := Int (quantity w name + int_value q)]>
                     (inventory_of w))).
    assert (inventory_of w1 !! name = Some (Int (int_value q))) as Hw1.
    { unfold w1. rewrite inventory_of_put, lookup_insert_eq.
      unfold quantity. by rewrite Hn. }
    exists w1, (put w1 (_inventory (self w1)) (delete name (inventory_of w1))).
    split_and!.
    + rewrite add_item_run. simpl.
      rewrite bool_decide_eq_false_2 by done.
      by rewrite bool_decide_eq_false_2 by lia.
    + rewrite remove_item_run. simpl.
      rewrite bool_decide_eq_false_2 by lia.
      rewrite Hw1. simpl.
      rewrite bool_decide_eq_false_2 by lia.
      by rewrite bool_decide_eq_true_2 by lia.
    + rewrite inventory_of_put. unfold w1.
      rewrite inventory_of_put. by apply delete_insert_id.
    + rewrite get_qty_run. unfold quantity.
      by rewrite inventory_of_put, lookup_delete_eq.
Qed.

Lemma remove_item_contract_witness :
  ∃ w1 w2,
    add_item (PyStr "x") (PyInt (Int 5)) new_store = (Return tt, w1) ∧
    remove_item "x" (PyInt (Int 5)) w1 = (Return tt, w2) ∧
    inventory_of w2 = inventory_of new_store.
Proof.
  assert (0 < int_value (Int 5)) as Hq by done.
  assert ("x" ≠ EmptyString) as Hne by done.
  assert (inventory_of new_store !! "x" = None) as Hx by (vm_compute; reflexivity).
  destruct (remove_item_contract new_store "x" (Int 5) Hq) as (_ & _ & H).
  destruct (H Hne Hx) as (w1 & w2 & Ha & Hr & Hi & _).
  by exists w1, w2.
Defined.

(** C4. [check_low_items(threshold)] raises [ValueError] when the threshold
    is negative (or is no int at all) and otherwise returns, without
    changing anything, a list without repetitions holding exactly the names
    whose stored quantity is at most the threshold, the names at the
    threshold included.  On [{a: 3, b: 5, c: 6}] with threshold 5 the list
    is a permutation of [a, b]. *)
Theorem check_low_items_contract :
  (∀ (w : world) (threshold : value),
     match check_low_items threshold w with
     | (Raise e, w') =>
         e = ValueError "threshold must be a non-negative integer" ∧ w' = w ∧
         ¬ ∃ t, threshold = PyInt t ∧ 0 ≤ int_value t
     | (Return names, w') =>
         w' = w ∧
         ∃ t, threshold = PyInt t ∧ 0 ≤ int_value t ∧ NoDup names ∧
              ∀ n, n ∈ names ↔
                   ∃ q, inventory_of w !! n = Some q ∧ int_value q ≤ int_value t
     end) ∧
  (∀ (w : world) (t : int_obj),
     int_value t < 0 →
     check_low_items (PyInt t) w =
       (Raise (ValueError "threshold must be a non-negative integer"), w)) ∧
  (∀ w : world,
     inventory_of w = {[ "a" := Int 3; "b" := Int 5; "c" := Int 6 ]} →
     ∃ names, check_low_items (PyInt (Int 5)) w = (Return names, w) ∧
              names ≡ₚ ["a"; "b"]).
Proof.
  split_and!.
  - intros w threshold. rewrite check_low_items_run.
    destruct (as_int threshold) as [t|] eqn:Ht.
    2: { split_and!; try done. intros (t & -> & _). discriminate. }
    destruct threshold; try discriminate. simpl in Ht. simplify_eq.
    case_bool_decide as Hneg.
    + split_and!; try done. intros (t' & ? & ?). simplify_eq. lia.
    + split; [done|]. exists t. split_and!; try done; [lia| |].
      * apply NoDup_low_items.
      * intros n. apply elem_of_low_items.
  - intros w t Ht. rewrite check_low_items_run. simpl.
    by rewrite bool_decide_eq_true_2.
  - intros w Hw. rewrite check_low_items_run, Hw. simpl.
    eexists. split; [done|].
    apply NoDup_Permutation.
    + apply NoDup_low_items.
    + apply (bool_decide_unpack _). vm_compute. done.
    + intros n. rewrite elem_of_low_items. split.
      * intros (q & Hq & Hle).
        destruct (decide (n = "a")) as [->|Ha]; [set_solver|].
        destruct (decide (n = "b")) as [->|Hb]; [set_solver|].
        rewrite !lookup_insert_ne in Hq by done.
        apply lookup_singleton_Some in Hq as [<- <-]. simpl in Hle. lia.
      * intros Hn. apply elem_of_cons in Hn as [->|Hn].
        { exists (Int 3). by rewrite lookup_insert_eq. }
        apply elem_of_cons in Hn as [->|Hn].
        { exists (Int 5). by rewrite lookup_insert_ne, lookup_insert_eq. }
        by apply elem_of_nil in Hn.
Qed.

Lemma check_low_items_contract_witness :
  check_low_items (PyInt (Int (-1))) store_abc =
    (Raise (ValueError "threshold must be a non-negative integer"), store_abc) ∧
  ∃ names, check_low_items (PyInt (Int 5)) store_abc = (Return names, store_abc) ∧
           names ≡ₚ ["a"; "b"].
Proof.
  destruct check_low_items_contract as (_ & Hneg & Habc).
  split.
  - apply (Hneg store_abc (Int (-1))). done.
  - apply (Habc store_abc). vm_compute. reflexivity.
Defined.

(** C9. [__init__] takes any initial mapping without validating it: the
    call returns, the store holds exactly the entries of the mapping,
    empty keys and zero or negative quantities included, [get_qty] reports
    the quantity of each entry and [as_dict] returns a dict with the same
    entries.  What the store holds is a copy: a dict object other than the
    one passed in, which [add_item] and [remove_item] leave as it was. *)
Theorem init_stores_unvalidated_copy :
  (∀ (w : world) (l : loc) (d : dict),
     heap w !! l = Some d →
     ∃ w', __init__ (Some l) w = (Return tt, w') ∧
           inventory_of w' = d ∧
           (∀ name v, d !! name = Some v →
                      get_qty name w' = (Return (int_value v), w')) ∧
           (∃ l' w'', as_dict w' = (Return l', w'') ∧ look w'' l' = d) ∧
           _inventory (self w') ≠ l ∧ heap w' !! l = Some d ∧
           (∀ name qty o w'', add_item name qty w' = (o, w'') →
                              heap w'' !! l = Some d) ∧
           (∀ name qty o w'', remove_item name qty w' = (o, w'') →
                              heap w'' !! l = Some d)) ∧
  (∀ w : world,
     ∃ w', __init__ None w = (Return tt, w') ∧ inventory_of w' = ∅).
Proof.
  split.
  - intros w l d Hl.
    destruct (init_Some_run w l d Hl) as (w' & Hrun & Hc & Hinv & Hne & Hl').
    exists w'. split_and!; try done.
    + intros name v Hv. rewrite get_qty_run. unfold quantity.
      by rewrite Hinv, Hv.
    + eexists _, _. rewrite as_dict_run. split; [done|].
      by rewrite look_put_eq.
    + intros name qty o w''. rewrite add_item_run.
      destruct (as_str name) as [n|]; [|by intros [= <- <-]].
      case_bool_decide; [by intros [= <- <-]|].
      destruct (as_int qty) as [q|]; [|by intros [= <- <-]].
      case_bool_decide; [by intros [= <- <-]|].
      intros [= <- <-]. rewrite heap_put. by rewrite lookup_insert_ne.
    + intros name qty o w''. rewrite remove_item_run.
      destruct (as_int qty) as [q|]; [|by intros [= <- <-]].
      case_bool_decide; [by intros [= <- <-]|].
      destruct (inventory_of w' !! name) as [cur|]; [|by intros [= <- <-]].
      case_bool_decide; [by intros [= <- <-]|].
      intros [= <- <-]. rewrite heap_put. by rewrite lookup_insert_ne.
  - intros w. destruct (init_None_run w) as (w' & Hrun & Hinv & _).
    by exists w'.
Qed.

Lemma init_stores_unvalidated_copy_witness :
  ∃ w', __init__ (Some 7%positive) world_with_initial = (Return tt, w') ∧
        inventory_of w' = {[ EmptyString := Int 0; "x" := Int (-2) ]} ∧
        get_qty EmptyString w' = (Return 0, w') ∧
        get_qty "x" w' = (Return (-2), w').
Proof.
  assert (heap world_with_initial !! 7%positive =
          Some ({[ EmptyString := Int 0; "x" := Int (-2) ]} : dict)) as Hl
    by (vm_compute; reflexivity).
  destruct (proj1 init_stores_unvalidated_copy _ _ _ Hl)
    as (w' & Hrun & Hinv & Hget & _).
  exists w'. split_and!; try done.
  - apply (Hget EmptyString (Int 0)). vm_compute. reflexivity.
  - apply (Hget "x" (Int (-2))). vm_compute. reflexivity.
Defined.

(** *** Loading, whatever [ast.literal_eval] does *)

Lemma same_but_refl (l : loc) (w : world) : same_but l w w.
Proof. by split_and!. Qed.

Lemma same_but_trans (l : loc) (w1 w2 w3 : world) :
  same_but l w1 w2 → same_but l w2 w3 → same_but l w1 w3.
Proof.
  intros (Hs1 & Hf1 & Hh1) (Hs2 & Hf2 & Hh2). split_and!; try congruence.
  intros l' Hl'. rewrite Hh2, Hh1; done.
Qed.

Lemma same_but_put (l : loc) (w : world) (d : dict) : same_but l w (put w l d).
Proof.
  split_and!; try done. intros l' Hl'.
  rewrite heap_put. by rewrite lookup_insert_ne.
Qed.

Section loading.

Variable literal_eval : string → outcome value.

Lemma load_item_run (normalized : loc) (k v : value) (w : world) :
  load_item literal_eval normalized (k, v) w =
  match as_str k with
  | None => (Raise (ValueError "inventory keys must be strings"), w)
  | Some key =>
      match normalized_value literal_eval key v with
      | Return i =>
          (Return tt, put w normalized (<[key := i]> (look w normalized)))
      | Raise e => (Raise e, w)
      end
  end.
Proof.
  unfold load_item, normalized_value.
  destruct (as_str k) as [key|]; [|done].
  destruct v as [|i|r|s|elems|items|cls]; simpl; try done.
  destruct (literal_eval s) as [v'|e].
  - by destruct v'.
  - by destruct (is_ValueError_or_SyntaxError e).
Qed.

Lemma load_item_same_but (normalized : loc) (item : value * value)
    (w w' : world) (o : outcome unit) :
  load_item literal_eval normalized item w = (o, w') →
  same_but normalized w w'.
Proof.
  destruct item as [k v]. rewrite load_item_run.
  destruct (as_str k) as [key|].
  - destruct (normalized_value literal_eval key v); intros [= <- <-].
    + apply same_but_put.
    + apply same_but_refl.
  - intros [= <- <-]. apply same_but_refl.
Qed.

Lemma for_each_load_item_same_but (normalized : loc)
    (items : list (value * value)) (w w' : world) (o : outcome unit) :
  for_each items (load_item literal_eval normalized) w = (o, w') →
  same_but normalized w w'.
Proof.
  revert w. induction items as [|item items IH]; intros w; simpl.
  - intros [= <- <-]. apply same_but_refl.
  - unfold bind.
    destruct (load_item literal_eval normalized item w) as [[[]|e] w1] eqn:E.
    + intros H. eapply same_but_trans; [by eapply load_item_same_but|eauto].
    + intros [= <- <-]. by eapply load_item_same_but.
Qed.

(** A load that raises leaves every object that existed, the attribute
    and the files as they were. *)
Lemma load_parsed_failure (data : value) (w w' : world) (e : exn) :
  load_parsed literal_eval data w = (Raise e, w') →
  self w' = self w ∧ files w' = files w ∧
  ∀ l, is_Some (heap w !! l) → heap w' !! l = heap w !! l.
Proof.
  unfold load_parsed.
  destruct data as [| | | | |items|]; try (intros [= <- <-]; by split_and!).
  unfold bind at 1. unfold new_dict. cbn zeta.
  set (nl := fresh_loc (heap w)). set (w1 := put w nl ∅).
  unfold bind.
  destruct (for_each items (load_item literal_eval nl) w1)
    as [[[]|e'] w2] eqn:E.
  { intros [=]. }
  intros [= <- <-].
  apply for_each_load_item_same_but in E as (Hs & Hf & Hh).
  split_and!; try done.
  intros l Hl. rewrite Hh by (by apply not_eq_sym, fresh_loc_ne).
  unfold w1. rewrite heap_put. rewrite lookup_insert_ne; [done|].
  by apply fresh_loc_ne.
Qed.

Lemma read_json_run (filepath : string) (w : world) :
  read_json filepath w =
  match files w !! filepath with
  | None => (Raise (FileNotFoundError (filepath +:+ " not found")), w)
  | Some (Undecodable msg) => (Raise (JSONDecodeError msg), w)
  | Some (JsonText doc) => (Return (json_load doc), w)
  end.
Proof. done. Qed.

Lemma load_data_run (filepath : string) (w : world) :
  load_data literal_eval filepath w =
  match files w !! filepath with
  | None => (Raise (FileNotFoundError (filepath +:+ " not found")), w)
  | Some (Undecodable msg) => (Raise (JSONDecodeError msg), w)
  | Some (JsonText doc) => load_parsed literal_eval (json_load doc) w
  end.
Proof.
  unfold load_data, bind. rewrite read_json_run.
  by destruct (files w !! filepath) as [[msg|doc]|].
Qed.

Lemma load_data_failure (filepath : string) (w w' : world) (e : exn) :
  load_data literal_eval filepath w = (Raise e, w') →
  self w' = self w ∧ files w' = files w ∧
  ∀ l, is_Some (heap w !! l) → heap w' !! l = heap w !! l.
Proof.
  rewrite load_data_run.
  destruct (files w !! filepath) as [[msg|doc]|].
  - by intros [= <- <-].
  - apply load_parsed_failure.
  - by intros [= <- <-].
Qed.

Lemma unchanged_inventory (w w' : world) :
  constructed w → self w' = self w →
  (∀ l, is_Some (heap w !! l) → heap w' !! l = heap w !! l) →
  inventory_of w' = inventory_of w.
Proof.
  intros Hc Hs Hh. unfold inventory_of, look. rewrite Hs. by rewrite Hh.
Qed.

(** The loop of [load_data] over items whose values are ints already. *)
Lemma for_each_load_item_ints (normalized : loc) (l : list (string * int_obj))
    (w : world) (d : dict) :
  for_each ((λ item, (PyStr item.1, PyInt item.2)) <$> l)
           (load_item literal_eval normalized) (put w normalized d) =
  (Return tt,
   put w normalized (fold_left (λ m item, <[item.1 := item.2]> m) l d)).
Proof.
  revert d. induction l as [|[k v] l IH]; intros d; [done|].
  cbn [fmap list_fmap for_each]. unfold bind.
  rewrite load_item_run. cbn [as_str normalized_value fst snd].
  rewrite look_put_eq, put_put. apply IH.
Qed.

(** C5. When [load_data] raises, whatever the reason (no file, a text
    that is not JSON, a top level that is not an object, a key that is not
    a string, a value that cannot be taken as an int, anywhere in the
    input), the attribute [self._inventory], the dict it refers to, every
    other existing object and the files are what they were: the mapping of
    the store is unchanged.  The same holds for the validation of any
    parsed value, and a file whose top level is an array is rejected with
    a [ValueError] and nothing at all changes. *)
Theorem load_data_failure_keeps_mapping :
  (∀ (w : world) (filepath : string) (e : exn) (w' : world),
     constructed w →
     load_data literal_eval filepath w = (Raise e, w') →
     inventory_of w' = inventory_of w ∧ self w' = self w ∧
     files w' = files w ∧
     ∀ l, is_Some (heap w !! l) → heap w' !! l = heap w !! l) ∧
  (∀ (w : world) (data : value) (e : exn) (w' : world),
     constructed w →
     load_parsed literal_eval data w = (Raise e, w') →
     inventory_of w' = inventory_of w ∧ self w' = self w ∧
     files w' = files w ∧
     ∀ l, is_Some (heap w !! l) → heap w' !! l = heap w !! l) ∧
  (∀ (w : world) (filepath : string) (elems : list json),
     files w !! filepath = Some (JsonText (JArray elems)) →
     load_data literal_eval filepath w =
       (Raise (ValueError
          "inventory file must contain a JSON object mapping names to integers"),
        w)).
Proof.
  split_and!.
  - intros w filepath e w' Hc H.
    apply load_data_failure in H as (Hs & Hf & Hh).
    split_and!; try done. by apply unchanged_inventory.
  - intros w data e w' Hc H.
    apply load_parsed_failure in H as (Hs & Hf & Hh).
    split_and!; try done. by apply unchanged_inventory.
  - intros w filepath elems Hf. by rewrite load_data_run, Hf.
Qed.

(** C6 as amended. For an item with a string key: a value that is an
    instance of [int] is kept as it is, and [True] and [False] are such
    instances; a string value is handed to [ast.literal_eval], an int result
    is kept, and a result that is no int, or a [ValueError] or [SyntaxError]
    from the parser, gives [ValueError("invalid quantity for item <key>")];
    a value that is neither int nor string (null, float, list, object)
    gives [ValueError("invalid quantity type for item <key>")].  Where the
    parser reads ["5"] as 5, loading [{"x": "5"}] returns and [get_qty("x")]
    is 5; where it rejects ["abc"], loading [{"x": "abc"}] raises that
    [ValueError] and the mapping is unchanged. *)
Theorem load_item_normalizes (normalized : loc) (key : string) (w : world) :
  (∀ i, load_item literal_eval normalized (PyStr key, PyInt i) w =
        (Return tt, put w normalized (<[key := i]> (look w normalized)))) ∧
  (∀ s i, literal_eval s = Return (PyInt i) →
        load_item literal_eval normalized (PyStr key, PyStr s) w =
        (Return tt, put w normalized (<[key := i]> (look w normalized)))) ∧
  (∀ s v', literal_eval s = Return v' → as_int v' = None →
        load_item literal_eval normalized (PyStr key, PyStr s) w =
        (Raise (ValueError ("invalid quantity for item " +:+ key)), w)) ∧
  (∀ s e, literal_eval s = Raise e → is_ValueError_or_SyntaxError e = true →
        load_item literal_eval normalized (PyStr key, PyStr s) w =
        (Raise (ValueError ("invalid quantity for item " +:+ key)), w)) ∧
  (∀ v, as_int v = None → as_str v = None →
        load_item literal_eval normalized (PyStr key, v) w =
        (Raise (ValueError ("invalid quantity type for item " +:+ key)), w)) ∧
  (∀ filepath,
        files w !! filepath = Some (JsonText (JObject [("x", JString "5")])) →
        literal_eval "5" = Return (PyInt (Int 5)) →
        ∃ w', load_data literal_eval filepath w = (Return tt, w') ∧
              get_qty "x" w' = (Return 5, w')) ∧
  (∀ filepath e,
        files w !! filepath = Some (JsonText (JObject [("x", JString "abc")])) →
        literal_eval "abc" = Raise e → is_ValueError_or_SyntaxError e = true →
        constructed w →
        ∃ w', load_data literal_eval filepath w =
                (Raise (ValueError "invalid quantity for item x"), w') ∧
              inventory_of w' = inventory_of w).
Proof.
  split_and!.
  - intros i. by rewrite load_item_run.
  - intros s i Hs. rewrite load_item_run. simpl. by rewrite Hs.
  - intros s v' Hs Hv'. rewrite load_item_run. simpl. rewrite Hs.
    by destruct v'.
  - intros s e Hs He. rewrite load_item_run. simpl. by rewrite Hs, He.
  - intros v Hi Hs. rewrite load_item_run. simpl. by destruct v.
  - intros filepath Hf H5. rewrite load_data_run, Hf.
    cbn [json_load map object_items fold_left items_set fst snd].
    unfold load_parsed, bind at 1, new_dict. cbn zeta.
    unfold bind at 1. cbn [for_each]. unfold bind at 1.
    rewrite load_item_run. cbn [as_str normalized_value]. rewrite H5.
    unfold ret, bind, set_inventory. eexists. split; [done|].
    rewrite get_qty_run. unfold quantity.
    by rewrite inventory_of_set_self, !look_put_eq, lookup_insert_eq.
  - intros filepath e Hf Habc He Hc.
    destruct (load_data literal_eval filepath w) as [o w'] eqn:E.
    assert (o = Raise (ValueError "invalid quantity for item x")) as ->.
    { revert E. rewrite load_data_run, Hf.
      cbn [json_load map object_items fold_left items_set fst snd].
      unfold load_parsed, bind at 1, new_dict. cbn zeta.
      unfold bind at 1. cbn [for_each]. unfold bind at 1.
      rewrite load_item_run. cbn [as_str normalized_value].
      rewrite Habc, He. by intros [= <- <-]. }
    exists w'. split; [done|].
    apply load_data_failure in E as (Hs & _ & Hh).
    by apply unchanged_inventory.
Qed.


(** C8 as amended. On a constructed store whose mapping has non-empty keys
    and quantities greater than 0, [add_item], [remove_item], [get_qty],
    [check_low_items], [as_dict], [save_data], and a [load_data] that
    raises, all leave a constructed store whose mapping has non-empty keys
    and quantities greater than 0, whatever their arguments and whether
    they return or raise. *)
Theorem store_invariant_preserved (w : world) :
  constructed w → store_invariant (inventory_of w) →
  (∀ name qty o w', add_item name qty w = (o, w') →
     constructed w' ∧ store_invariant (inventory_of w')) ∧
  (∀ name qty o w', remove_item name qty w = (o, w') →
     constructed w' ∧ store_invariant (inventory_of w')) ∧
  (∀ name o w', get_qty name w = (o, w') →
     constructed w' ∧ store_invariant (inventory_of w')) ∧
  (∀ threshold o w', check_low_items threshold w = (o, w') →
     constructed w' ∧ store_invariant (inventory_of w')) ∧
  (∀ o w', as_dict w = (o, w') →
     constructed w' ∧ store_invariant (inventory_of w')) ∧
  (∀ filepath o w', save_data filepath w = (o, w') →
     constructed w' ∧ store_invariant (inventory_of w')) ∧
  (∀ filepath e w', load_data literal_eval filepath w = (Raise e, w') →
     constructed w' ∧ store_invariant (inventory_of w')).
Proof.
  intros Hc Hinv. split_and!.
  - intros name qty o w'. rewrite add_item_run.
    destruct (as_str name) as [n|]; [|by intros [= <- <-]].
    case_bool_decide as Hn; [by intros [= <- <-]|].
    destruct (as_int qty) as [q|]; [|by intros [= <- <-]].
    case_bool_decide as Hq; [by intros [= <- <-]|].
    intros [= <- <-]. split; [by apply constructed_put|].
    rewrite inventory_of_put. apply store_invariant_insert; [done..|].
    simpl. unfold quantity.
    destruct (inventory_of w !! n) as [v|] eqn:Hv; simpl; [|lia].
    apply Hinv in Hv as [_ Hv]. lia.
  - intros name qty o w'. rewrite remove_item_run.
    destruct (as_int qty) as [q|]; [|by intros [= <- <-]].
    case_bool_decide as Hq; [by intros [= <- <-]|].
    destruct (inventory_of w !! name) as [cur|] eqn:Hcur;
      [|by intros [= <- <-]].
    case_bool_decide as Hlt; [by intros [= <- <-]|].
    intros [= <- <-]. split; [by apply constructed_put|].
    rewrite inventory_of_put. case_bool_decide as Hz.
    + by apply store_invariant_delete.
    + apply store_invariant_insert; [done| |simpl; lia].
      by apply Hinv in Hcur as [? _].
  - intros name o w'. rewrite get_qty_run. by intros [= <- <-].
  - intros threshold o w'. rewrite check_low_items_run.
    destruct (as_int threshold) as [t|]; [|by intros [= <- <-]].
    by case_bool_decide; intros [= <- <-].
  - intros o w'. rewrite as_dict_run. intros [= <- <-].
    split; [by apply constructed_put|].
    by rewrite inventory_of_new_object.
  - intros filepath o w'. rewrite save_data_run.
    by destruct (dumpable (inventory_of w)); intros [= <- <-].
  - intros filepath e w' H.
    apply load_data_failure in H as (Hs & Hf & Hh).
    assert (heap w' !! _inventory (self w') = heap w !! _inventory (self w))
      as Heq by (rewrite Hs; by apply Hh).
    split.
    + unfold constructed. by rewrite Heq.
    + unfold inventory_of, look. by rewrite Heq.
Qed.

(** C10. The string ["-3"] is an integer literal for [ast.literal_eval],
    so loading [{"x": "-3"}] returns and [get_qty("x")] is then -3: a load
    can store a negative quantity. *)
Theorem load_data_accepts_negative_literal (w : world) (filepath : string) :
  files w !! filepath = Some (JsonText (JObject [("x", JString "-3")])) →
  literal_eval "-3" = Return (PyInt (Int (-3))) →
  ∃ w', load_data literal_eval filepath w = (Return tt, w') ∧
        inventory_of w' = {[ "x" := Int (-3) ]} ∧
        get_qty "x" w' = (Return (-3), w').
Proof.
  intros Hf Hlit. rewrite load_data_run, Hf.
  cbn [json_load map object_items fold_left items_set fst snd].
  unfold load_parsed, bind at 1, new_dict. cbn zeta.
  unfold bind at 1. cbn [for_each]. unfold bind at 1.
  rewrite load_item_run. cbn [as_str normalized_value]. rewrite Hlit.
  unfold ret, bind, set_inventory. eexists. split; [done|].
  rewrite get_qty_run. unfold quantity.
  rewrite inventory_of_set_self, !look_put_eq.
  split; [done|]. by rewrite lookup_insert_eq.
Qed.

End loading.

Lemma load_data_failure_keeps_mapping_witness :
  ∃ w', load_data literal_eval_decimal "inventory.json"
          (with_file (JObject [("y", JInt 1); ("x", JString "abc")])) =
          (Raise (ValueError "invalid quantity for item x"), w') ∧
        inventory_of w' =
          inventory_of (with_file (JObject [("y", JInt 1); ("x", JString "abc")])).
Proof.
  set (w := with_file (JObject [("y", JInt 1); ("x", JString "abc")])).
  assert (constructed w) as Hc by (vm_compute; eexists; reflexivity).
  assert (load_data literal_eval_decimal "inventory.json" w =
          (Raise (ValueError "invalid quantity for item x"),
           (load_data literal_eval_decimal "inventory.json" w).2)) as H
    by (vm_compute; reflexivity).
  eexists. split; [exact H|].
  by destruct (proj1 (load_data_failure_keeps_mapping literal_eval_decimal)
                 _ _ _ _ Hc H) as [? _].
Defined.

Lemma load_item_normalizes_witness :
  (∃ w', load_data literal_eval_decimal "inventory.json"
           (with_file (JObject [("x", JString "5")])) = (Return tt, w') ∧
         get_qty "x" w' = (Return 5, w')) ∧
  (∃ w', load_data literal_eval_decimal "inventory.json"
           (with_file (JObject [("x", JString "abc")])) =
           (Raise (ValueError "invalid quantity for item x"), w') ∧
         inventory_of w' = inventory_of store_x5).
Proof.
  split.
  - apply (load_item_normalizes literal_eval_decimal 1%positive "x").
    + vm_compute. reflexivity.
    + vm_compute. reflexivity.
  - apply (load_item_normalizes literal_eval_decimal 1%positive "x"
             (with_file (JObject [("x", JString "abc")])) ) with
      (e := ValueError "malformed node or string").
    + vm_compute. reflexivity.
    + vm_compute. reflexivity.
    + reflexivity.
    + vm_compute. eexists. reflexivity.
Defined.

(** C6, as stated, fails on a boolean: a file holding [{"x": true}] loads
    without an exception, [True] is stored and [get_qty("x")] is 1. *)
Lemma load_data_accepts_true :
  ∃ w', load_data literal_eval_decimal "inventory.json"
          (with_file (JObject [("x", JBool true)])) = (Return tt, w') ∧
        inventory_of w' !! "x" = Some (Bool true) ∧
        get_qty "x" w' = (Return 1, w').
Proof. eexists. split; [vm_compute; reflexivity|]. split; vm_compute; reflexivity. Qed.

(** C8, as stated, fails on [load_data]: a new store keeps the invariant,
    a file holding [{"x": 0}] loads into it without an exception, and the
    store then holds quantity 0 for ["x"]. *)
Lemma load_data_breaks_invariant :
  store_invariant (inventory_of new_store) ∧
  ∃ w', load_data literal_eval_decimal "inventory.json"
          (set_files new_store
             {[ "inventory.json" := JsonText (JObject [("x", JInt 0)]) ]})
        = (Return tt, w') ∧
        inventory_of w' !! "x" = Some (Int 0) ∧
        ¬ store_invariant (inventory_of w').
Proof.
  split.
  - replace (inventory_of new_store) with (∅ : dict)
      by (vm_compute; reflexivity).
    apply store_invariant_empty.
  - eexists. split; [vm_compute; reflexivity|].
    assert (∀ d : dict, d !! "x" = Some (Int 0) → ¬ store_invariant d) as Hno.
    { intros d Hd Hinv. apply Hinv in Hd as [_ Hpos]. simpl in Hpos. lia. }
    split; [|apply Hno]; vm_compute; reflexivity.
Qed.

Lemma store_invariant_preserved_witness :
  constructed store_x5 ∧ store_invariant (inventory_of store_x5) ∧
  store_invariant
    (inventory_of (remove_item "x" (PyInt (Int 2)) store_x5).2).
Proof.
  assert (constructed store_x5) as Hc by (vm_compute; eexists; reflexivity).
  assert (store_invariant (inventory_of store_x5)) as Hinv.
  { replace (inventory_of store_x5) with (<["x" := Int 5]> (∅ : dict))
      by (vm_compute; reflexivity).
    apply store_invariant_insert; [apply store_invariant_empty|done|done]. }
  split; [done|]. split; [done|].
  destruct (store_invariant_preserved literal_eval_decimal store_x5 Hc Hinv)
    as (_ & Hrem & _).
  eapply Hrem. apply surjective_pairing.
Defined.

Lemma load_data_accepts_negative_literal_witness :
  ∃ w', load_data literal_eval_decimal "inventory.json"
          (with_file (JObject [("x", JString "-3")])) = (Return tt, w') ∧
        inventory_of w' = {[ "x" := Int (-3) ]} ∧
        get_qty "x" w' = (Return (-3), w').
Proof.
  apply (load_data_accepts_negative_literal literal_eval_decimal).
  - vm_compute. reflexivity.
  - vm_compute. reflexivity.
Defined.


(** ** Further properties of the operations *)

Lemma add_item_ok (w : world) (n : string) (q : int_obj) :
  n ≠ EmptyString → 0 < int_value q →
  add_item (PyStr n) (PyInt q) w =
  (Return tt,
   put w (_inventory (self w))
     (<[n := Int (quantity w n + int_value q)]> (inventory_of w))).
Proof.
  intros Hn Hq. rewrite add_item_run. simpl.
  rewrite bool_decide_eq_false_2 by done.
  by rewrite bool_decide_eq_false_2 by lia.
Qed.

Lemma remove_item_ok (w : world) (n : string) (q cur : int_obj) :
  0 < int_value q → inventory_of w !! n = Some cur →
  int_value q ≤ int_value cur →
  remove_item n (PyInt q) w =
  (Return tt,
   put w (_inventory (self w))
     (if bool_decide (int_value cur - int_value q = 0)
      then delete n (inventory_of w)
      else <[n := Int (int_value cur - int_value q)]> (inventory_of w))).
Proof.
  intros Hq Hcur Hle. rewrite remove_item_run. simpl.
  rewrite bool_decide_eq_false_2 by lia. rewrite Hcur.
  by rewrite bool_decide_eq_false_2 by lia.
Qed.

Lemma quantity_put (w : world) (d : dict) (n : string) :
  quantity (put w (_inventory (self w)) d) n =
  int_value (default (Int 0) (d !! n)).
Proof. unfold quantity. by rewrite inventory_of_put. Qed.

Lemma put_inventory_twice (w : world) (d d' : dict) :
  put (put w (_inventory (self w)) d)
      (_inventory (self (put w (_inventory (self w)) d))) d' =
  put w (_inventory (self w)) d'.
Proof. rewrite self_put. apply put_put. Qed.

(** X1. The dict [as_dict] returns is a new object holding the entries of
    the store: [add_item] and [remove_item] on the store afterwards do not
    change it, and changing it does not change the mapping of the store. *)
Theorem as_dict_independent_copy (w : world) :
  constructed w →
  ∃ l w1,
    as_dict w = (Return l, w1) ∧
    heap w !! l = None ∧ l ≠ _inventory (self w1) ∧
    look w1 l = inventory_of w ∧ inventory_of w1 = inventory_of w ∧
    (∀ name qty o w2, add_item name qty w1 = (o, w2) →
                      look w2 l = inventory_of w) ∧
    (∀ name qty o w2, remove_item name qty w1 = (o, w2) →
                      look w2 l = inventory_of w) ∧
    (∀ d, inventory_of (put w1 l d) = inventory_of w).
Proof.
  intros Hc. eexists _, _. rewrite as_dict_run. split; [done|].
  set (l := fresh_loc (heap w)).
  assert (l ≠ _inventory (self w)) as Hne by (by apply fresh_loc_ne).
  split_and!.
  - apply fresh_loc_fresh.
  - by rewrite self_put.
  - apply look_put_eq.
  - by apply inventory_of_new_object.
  - intros name qty o w2. rewrite add_item_run.
    destruct (as_str name) as [n|];
      [|intros [= <- <-]; apply look_put_eq].
    case_bool_decide; [intros [= <- <-]; apply look_put_eq|].
    destruct (as_int qty) as [q|]; [|intros [= <- <-]; apply look_put_eq].
    case_bool_decide; [intros [= <- <-]; apply look_put_eq|].
    intros [= <- <-].
    rewrite look_put_ne by (by apply not_eq_sym). apply look_put_eq.
  - intros name qty o w2. rewrite remove_item_run.
    destruct (as_int qty) as [q|]; [|intros [= <- <-]; apply look_put_eq].
    case_bool_decide; [intros [= <- <-]; apply look_put_eq|].
    destruct (inventory_of (put w l (inventory_of w)) !! name) as [cur|];
      [|intros [= <- <-]; apply look_put_eq].
    case_bool_decide; [intros [= <- <-]; apply look_put_eq|].
    intros [= <- <-].
    rewrite look_put_ne by (by apply not_eq_sym). apply look_put_eq.
  - intros d. rewrite put_put. by apply inventory_of_new_object.
Qed.

Lemma as_dict_independent_copy_witness :
  ∃ l w1, as_dict store_x5 = (Return l, w1) ∧
          look w1 l = inventory_of store_x5 ∧
          l ≠ _inventory (self w1).
Proof.
  assert (constructed store_x5) as Hc by (vm_compute; eexists; reflexivity).
  destruct (as_dict_independent_copy store_x5 Hc)
    as (l & w1 & Hrun & _ & Hne & Hl & _).
  by exists l, w1.
Defined.

(** X2. Two additions to the same item add up: [add_item(n, a)] followed by
    [add_item(n, b)] leaves the world that [add_item(n, a + b)] leaves. *)
Theorem add_item_accumulates (w : world) (n : string) (a b : int_obj) :
  n ≠ EmptyString → 0 < int_value a → 0 < int_value b →
  (add_item (PyStr n) (PyInt a) ;; add_item (PyStr n) (PyInt b)) w =
  add_item (PyStr n) (PyInt (Int (int_value a + int_value b))) w.
Proof.
  intros Hn Ha Hb. unfold bind.
  rewrite !add_item_ok by (done || simpl; lia).
  rewrite put_inventory_twice, quantity_put, inventory_of_put.
  rewrite lookup_insert_eq, insert_insert_eq. simpl.
  do 3 f_equal. f_equal. lia.
Qed.

Lemma add_item_accumulates_witness :
  (add_item (PyStr "x") (PyInt (Int 2)) ;;
   add_item (PyStr "x") (PyInt (Int 3))) new_store =
  add_item (PyStr "x") (PyInt (Int 5)) new_store.
Proof.
  apply (add_item_accumulates new_store "x" (Int 2) (Int 3)); done.
Defined.

(** X3. Additions to different items commute: the two orders leave the same
    world. *)
Theorem add_item_commutes (w : world) (n1 n2 : string) (a b : int_obj) :
  n1 ≠ EmptyString → n2 ≠ EmptyString → n1 ≠ n2 →
  0 < int_value a → 0 < int_value b →
  (add_item (PyStr n1) (PyInt a) ;; add_item (PyStr n2) (PyInt b)) w =
  (add_item (PyStr n2) (PyInt b) ;; add_item (PyStr n1) (PyInt a)) w.
Proof.
  intros Hn1 Hn2 Hne Ha Hb. unfold bind.
  rewrite !add_item_ok by done.
  rewrite !put_inventory_twice, !quantity_put, !inventory_of_put.
  rewrite !lookup_insert_ne by done.
  rewrite (insert_insert_ne _ n2 n1) by done. done.
Qed.

Lemma add_item_commutes_witness :
  (add_item (PyStr "a") (PyInt (Int 2)) ;;
   add_item (PyStr "b") (PyInt (Int 3))) new_store =
  (add_item (PyStr "b") (PyInt (Int 3)) ;;
   add_item (PyStr "a") (PyInt (Int 2))) new_store.
Proof.
  apply (add_item_commutes new_store "a" "b" (Int 2) (Int 3)); done.
Defined.

(** X4. On a store whose quantity for [n] is not negative, adding [q] to
    [n] and removing [q] again returns, and [get_qty] then gives for every
    name what it gave before the addition. *)
Theorem add_then_remove_restores_quantities
    (w : world) (n : string) (q : int_obj) :
  n ≠ EmptyString → 0 < int_value q → 0 ≤ quantity w n →
  ∃ w2,
    (add_item (PyStr n) (PyInt q) ;; remove_item n (PyInt q)) w =
      (Return tt, w2) ∧
    ∀ m, get_qty m w2 = (Return (quantity w m), w2).
Proof.
  intros Hn Hq Hnonneg. unfold bind. rewrite add_item_ok by done.
  erewrite remove_item_ok;
    [|done|by rewrite inventory_of_put, lookup_insert_eq|simpl; lia].
  rewrite put_inventory_twice, inventory_of_put. cbn [int_value].
  eexists. split; [done|].
  intros m. rewrite get_qty_run. f_equal. rewrite quantity_put.
  case_bool_decide as Hz.
  - rewrite delete_insert_eq.
    destruct (decide (m = n)) as [->|Hne].
    + rewrite lookup_delete_eq. simpl. f_equal. lia.
    + by rewrite lookup_delete_ne.
  - rewrite insert_insert_eq.
    destruct (decide (m = n)) as [->|Hne].
    + rewrite lookup_insert_eq. simpl. f_equal. lia.
    + by rewrite lookup_insert_ne.
Qed.

Lemma add_then_remove_restores_quantities_witness :
  ∃ w2,
    (add_item (PyStr "x") (PyInt (Int 4)) ;; remove_item "x" (PyInt (Int 4)))
      store_x5 = (Return tt, w2) ∧
    ∀ m, get_qty m w2 = (Return (quantity store_x5 m), w2).
Proof.
  apply (add_then_remove_restores_quantities store_x5 "x" (Int 4)); done.
Defined.

(** X5. A removal can be made in two steps: when the store holds at least
    [a + b] of [n], [remove_item(n, a)] followed by [remove_item(n, b)]
    leaves the world that [remove_item(n, a + b)] leaves. *)
Theorem remove_item_splits (w : world) (n : string) (a b cur : int_obj) :
  0 < int_value a → 0 < int_value b →
  inventory_of w !! n = Some cur →
  int_value a + int_value b ≤ int_value cur →
  (remove_item n (PyInt a) ;; remove_item n (PyInt b)) w =
  remove_item n (PyInt (Int (int_value a + int_value b))) w.
Proof.
  intros Ha Hb Hcur Hle. unfold bind.
  rewrite (remove_item_ok w n a cur) by (done || lia).
  rewrite bool_decide_eq_false_2 by lia.
  erewrite remove_item_ok;
    [|done|by rewrite inventory_of_put, lookup_insert_eq|simpl; lia].
  rewrite (remove_item_ok w n (Int (int_value a + int_value b)) cur)
    by (done || simpl; lia).
  rewrite put_inventory_twice, inventory_of_put. cbn [int_value].
  do 2 f_equal.
  case_bool_decide as Hz.
  - rewrite bool_decide_eq_true_2 by lia. by rewrite delete_insert_eq.
  - rewrite bool_decide_eq_false_2 by lia. rewrite insert_insert_eq.
    do 2 f_equal. lia.
Qed.

Lemma remove_item_splits_witness :
  (remove_item "x" (PyInt (Int 2)) ;; remove_item "x" (PyInt (Int 3)))
    store_x5 =
  remove_item "x" (PyInt (Int 5)) store_x5.
Proof.
  apply (remove_item_splits store_x5 "x" (Int 2) (Int 3) (Int 5)); done.
Defined.

(** X6. [check_low_items] grows with its threshold: every name listed for a
    threshold is listed for any greater one. *)
Theorem check_low_items_monotone (w : world) (t1 t2 : int_obj) :
  0 ≤ int_value t1 → int_value t1 ≤ int_value t2 →
  ∃ l1 l2,
    check_low_items (PyInt t1) w = (Return l1, w) ∧
    check_low_items (PyInt t2) w = (Return l2, w) ∧
    l1 ⊆ l2.
Proof.
  intros H1 H12. eexists _, _. rewrite !check_low_items_run. simpl.
  rewrite !bool_decide_eq_false_2 by lia.
  split_and!; try done.
  intros n (q & Hq & Hle)%elem_of_low_items.
  apply elem_of_low_items. exists q. split; [done|lia].
Qed.

Lemma check_low_items_monotone_witness :
  ∃ l1 l2,
    check_low_items (PyInt (Int 3)) store_abc = (Return l1, store_abc) ∧
    check_low_items (PyInt (Int 5)) store_abc = (Return l2, store_abc) ∧
    l1 ⊆ l2.
Proof.
  apply (check_low_items_monotone store_abc (Int 3) (Int 5)); done.
Defined.

(** X7. On a store whose quantities are all greater than 0, nothing is low
    at threshold 0: [check_low_items(0)] returns the empty list. *)
Theorem check_low_items_zero (w : world) :
  store_invariant (inventory_of w) →
  check_low_items (PyInt (Int 0)) w = (Return [], w).
Proof.
  intros Hinv. rewrite check_low_items_run. simpl. do 2 f_equal.
  apply elem_of_nil_inv. intros n (q & Hq & Hle)%elem_of_low_items.
  apply Hinv in Hq as [_ Hq]. lia.
Qed.

Lemma check_low_items_zero_witness :
  check_low_items (PyInt (Int 0)) store_x5 = (Return [], store_x5).
Proof.
  apply check_low_items_zero.
  replace (inventory_of store_x5) with (<["x" := Int 5]> (∅ : dict))
    by (vm_compute; reflexivity).
  apply store_invariant_insert; [apply store_invariant_empty|done|done].
Defined.

(** *** More on [load_data] *)

Lemma elem_of_items_set_keys {A} (k k' : string) (v : A)
    (items : list (string * A)) :
  k ∈ (items_set k' v items).*1 ↔ k = k' ∨ k ∈ items.*1.
Proof.
  induction items as [|[k0 v0] items IH]; simpl.
  - rewrite list_elem_of_singleton, elem_of_nil. naive_solver.
  - case_bool_decide as Heq; simpl; rewrite !elem_of_cons.
    + subst. naive_solver.
    + rewrite IH. naive_solver.
Qed.

Lemma elem_of_object_items_keys {A} (k : string) (members : list (string * A)) :
  k ∈ (object_items members).*1 ↔ k ∈ members.*1.
Proof.
  unfold object_items.
  assert (∀ acc : list (string * A),
    k ∈ (fold_left (λ items m, items_set m.1 m.2 items) members acc).*1 ↔
    k ∈ acc.*1 ∨ k ∈ members.*1) as H.
  { induction members as [|[k' v'] members IH]; intros acc; simpl.
    - rewrite elem_of_nil. naive_solver.
    - rewrite IH, elem_of_items_set_keys, elem_of_cons. naive_solver. }
  rewrite H. simpl. rewrite elem_of_nil. naive_solver.
Qed.

Lemma elem_of_str_keys (k : string) (l : list (string * value)) :
  PyStr k ∈ ((λ item, (PyStr item.1, item.2)) <$> l).*1 ↔ k ∈ l.*1.
Proof.
  induction l as [|[k' v'] l IH]; simpl.
  - by rewrite !elem_of_nil.
  - rewrite !elem_of_cons, IH. split; intros [?|?]; simplify_eq; auto.
Qed.

Lemma elem_of_loaded_keys (k : string) (members : list (string * json)) :
  k ∈ ((λ m, (m.1, json_load m.2)) <$> members).*1 ↔ k ∈ members.*1.
Proof.
  induction members as [|[k' j] members IH]; simpl.
  - by rewrite !elem_of_nil.
  - by rewrite !elem_of_cons, IH.
Qed.

Lemma json_load_object (members : list (string * json)) :
  json_load (JObject members) =
  PyDict ((λ item, (PyStr item.1, item.2)) <$>
          object_items ((λ m, (m.1, json_load m.2)) <$> members)).
Proof. done. Qed.

Section loading_further.

Variable literal_eval : string → outcome value.

Lemma for_each_load_item_normalize (normalized : loc)
    (items : list (value * value)) (w : world) (d : dict) :
  for_each items (load_item literal_eval normalized) (put w normalized d) =
  ((normalize_items literal_eval items d).1,
   put w normalized (normalize_items literal_eval items d).2).
Proof.
  revert d. induction items as [|[k v] items IH]; intros d; [done|].
  cbn [for_each normalize_items]. unfold bind. rewrite load_item_run.
  destruct (as_str k) as [key|]; [|done].
  destruct (normalized_value literal_eval key v) as [i|e]; [|done].
  rewrite look_put_eq, put_put. apply IH.
Qed.

Lemma load_parsed_normalize (items : list (value * value)) (w : world) :
  load_parsed literal_eval (PyDict items) w =
  match normalize_items literal_eval items ∅ with
  | (Return _, d) =>
      (Return tt,
       set_self (put w (fresh_loc (heap w)) d) (fresh_loc (heap w)))
  | (Raise e, d) => (Raise e, put w (fresh_loc (heap w)) d)
  end.
Proof.
  unfold load_parsed, bind at 1, new_dict. cbn zeta. unfold bind.
  rewrite for_each_load_item_normalize.
  by destruct (normalize_items literal_eval items ∅) as [[[]|e] d].
Qed.

Lemma normalize_items_keys (items : list (value * value)) (d d' : dict) :
  normalize_items literal_eval items d = (Return tt, d') →
  ∀ k, is_Some (d' !! k) ↔ is_Some (d !! k) ∨ PyStr k ∈ items.*1.
Proof.
  revert d. induction items as [|[k0 v0] items IH]; intros d; simpl.
  - intros [= <-] k. rewrite elem_of_nil. naive_solver.
  - destruct (as_str k0) as [key|] eqn:Hk0; [|done].
    destruct k0; try discriminate. simpl in Hk0. simplify_eq.
    destruct (normalized_value literal_eval key v0) as [i|e]; [|done].
    intros H k. rewrite (IH _ H), elem_of_cons, lookup_insert.
    case_decide; subst; naive_solver.
Qed.

(** A successful load, in one step. *)
Lemma load_data_returns (w w' : world) (filepath : string) :
  load_data literal_eval filepath w = (Return tt, w') →
  ∃ doc items d,
    files w !! filepath = Some (JsonText doc) ∧
    json_load doc = PyDict items ∧
    normalize_items literal_eval items ∅ = (Return tt, d) ∧
    w' = set_self (put w (fresh_loc (heap w)) d) (fresh_loc (heap w)).
Proof.
  rewrite load_data_run.
  destruct (files w !! filepath) as [[msg|doc]|]; try done.
  destruct (json_load doc) as [| | | | |items|] eqn:Hdoc; try done.
  rewrite load_parsed_normalize.
  destruct (normalize_items literal_eval items ∅) as [[[]|e] d] eqn:Hn;
    [|done].
  intros [= <-]. by exists doc, items, d.
Qed.

(** X8. What [load_data] does depends on the file alone, not on what the
    store holds: from two worlds in which the file is the same, it returns
    in both or raises the same exception in both, and when it returns the
    two stores hold the same mapping. *)
Theorem load_data_depends_on_file_only (w1 w2 : world) (filepath : string) :
  files w1 !! filepath = files w2 !! filepath →
  (load_data literal_eval filepath w1).1 =
    (load_data literal_eval filepath w2).1 ∧
  ((load_data literal_eval filepath w1).1 = Return tt →
   inventory_of (load_data literal_eval filepath w1).2 =
     inventory_of (load_data literal_eval filepath w2).2).
Proof.
  intros Hf. rewrite !load_data_run, <- Hf.
  destruct (files w1 !! filepath) as [[msg|doc]|]; try done.
  destruct (json_load doc) as [| | | | |items|]; try done.
  rewrite !load_parsed_normalize.
  destruct (normalize_items literal_eval items ∅) as [[[]|e] d]; [|done].
  split; [done|]. intros _. simpl.
  by rewrite !inventory_of_set_self, !look_put_eq.
Qed.

(** X9. After a load that returns, the store holds exactly the names of the
    members of the JSON object in the file: every name of the file is a
    key, and no entry of the previous mapping is left. *)
Theorem load_data_keys (w w' : world) (filepath : string)
    (members : list (string * json)) :
  files w !! filepath = Some (JsonText (JObject members)) →
  load_data literal_eval filepath w = (Return tt, w') →
  ∀ k, is_Some (inventory_of w' !! k) ↔ k ∈ members.*1.
Proof.
  intros Hf (doc & items & d & Hf' & Hdoc & Hn & ->)%load_data_returns k.
  rewrite Hf in Hf'. simplify_eq. rewrite json_load_object in Hdoc.
  simplify_eq.
  rewrite inventory_of_set_self, look_put_eq.
  rewrite (normalize_items_keys _ _ _ Hn), lookup_empty.
  rewrite elem_of_str_keys, elem_of_object_items_keys, elem_of_loaded_keys.
  split; [|by right]. intros [[? ?]|?]; done.
Qed.

(** X10. [load_data] never changes a dict object that exists, nor a file:
    whether it returns or raises, every existing object (the dict the store
    held, a copy handed out by [as_dict]) keeps its entries.  When it
    returns, the store refers to a dict object that did not exist before. *)
Theorem load_data_never_mutates_objects
    (w w' : world) (filepath : string) (o : outcome unit) :
  load_data literal_eval filepath w = (o, w') →
  files w' = files w ∧
  (∀ l, is_Some (heap w !! l) → heap w' !! l = heap w !! l) ∧
  (o = Return tt →
   heap w !! _inventory (self w') = None ∧ constructed w').
Proof.
  destruct o as [[]|e]; intros H.
  - apply load_data_returns in H as (doc & items & d & _ & _ & _ & ->).
    split_and!.
    + done.
    + intros l Hl. unfold set_self. cbn [heap]. rewrite heap_put.
      rewrite lookup_insert_ne; [done|]. by apply fresh_loc_ne.
    + intros _. rewrite self_set_self. split; [apply fresh_loc_fresh|].
      unfold constructed. rewrite self_set_self. unfold set_self.
      cbn [heap]. rewrite heap_put, lookup_insert_eq. eauto.
  - apply load_data_failure in H as (_ & Hf & Hh). by split_and!.
Qed.

(** X11. An exception of [ast.literal_eval] that is neither a [ValueError]
    nor a [SyntaxError] is not turned into a [ValueError]: [load_data]
    raises it as it is. *)
Theorem load_data_propagates_parser_exception
    (w : world) (filepath key s : string) (e : exn) :
  files w !! filepath = Some (JsonText (JObject [(key, JString s)])) →
  literal_eval s = Raise e →
  is_ValueError_or_SyntaxError e = false →
  ∃ w', load_data literal_eval filepath w = (Raise e, w').
Proof.
  intros Hf Hs He. rewrite load_data_run, Hf.
  cbn [json_load map object_items fold_left items_set fst snd].
  rewrite load_parsed_normalize.
  cbn [normalize_items as_str normalized_value]. rewrite Hs, He. eauto.
Qed.

(** What was saved loads back, wherever the file is found. *)
Lemma load_dumped (w : world) (filepath : string) (d : dict) :
  files w !! filepath = Some (JsonText (json_dump d)) →
  ∃ w', load_data literal_eval filepath w = (Return tt, w') ∧
        inventory_of w' = d.
Proof.
  intros Hf. rewrite load_data_run, Hf, json_load_dump.
  unfold load_parsed, bind at 1, new_dict. cbn zeta.
  unfold bind. rewrite for_each_load_item_ints, foldl_insert_map_to_list.
  eexists. split; [done|].
  unfold set_inventory. by rewrite inventory_of_set_self, look_put_eq.
Qed.

End loading_further.

Lemma load_data_depends_on_file_only_witness :
  (load_data literal_eval_decimal "inventory.json"
     (with_file (JObject [("y", JString "7")]))).1 =
  (load_data literal_eval_decimal "inventory.json"
     (set_files new_store
        {[ "inventory.json" := JsonText (JObject [("y", JString "7")]) ]})).1.
Proof.
  apply load_data_depends_on_file_only. vm_compute. reflexivity.
Defined.

Lemma load_data_keys_witness :
  is_Some
    (inventory_of
       (load_data literal_eval_decimal "inventory.json"
          (with_file (JObject [("y", JString "7"); ("z", JInt 1)]))).2
     !! "x") ↔
  "x" ∈ ["y"; "z"].
Proof.
  apply (load_data_keys literal_eval_decimal
           (with_file (JObject [("y", JString "7"); ("z", JInt 1)])) _
           "inventory.json" [("y", JString "7"); ("z", JInt 1)]).
  - vm_compute. reflexivity.
  - vm_compute. reflexivity.
Defined.

Lemma load_data_never_mutates_objects_witness :
  heap (load_data literal_eval_decimal "inventory.json"
          (with_file (JObject [("y", JInt 7)]))).2
    !! _inventory (self store_x5) =
  heap store_x5 !! _inventory (self store_x5).
Proof.
  destruct (load_data_never_mutates_objects literal_eval_decimal
              (with_file (JObject [("y", JInt 7)])) _ "inventory.json" _
              (surjective_pairing _)) as (_ & Hh & _).
  apply Hh. vm_compute. eexists. reflexivity.
Defined.

Lemma load_data_propagates_parser_exception_witness :
  ∃ w', load_data (λ _, Raise (TypeError "unhashable type: 'list'"))
          "inventory.json" (with_file (JObject [("x", JString "{[]: 1}")])) =
        (Raise (TypeError "unhashable type: 'list'"), w').
Proof.
  apply (load_data_propagates_parser_exception
           (λ _, Raise (TypeError "unhashable type: 'list'"))
           _ "inventory.json" "x" "{[]: 1}").
  - vm_compute. reflexivity.
  - reflexivity.
  - reflexivity.
Defined.

(** *** [print_data] *)




Lemma print_data_run (w : world) :
  print_data w =
  (print_items (merge_sort item_le (map_to_list (inventory_of w))), w).
Proof. done. Qed.





(** *** Sequences of calls *)

(** The calls other than [add_item] and [remove_item] leave the mapping of
    a constructed store as it is. *)
Lemma perform_reading (o : op) (w w' : world) (r : outcome unit) :
  match o with Add _ _ | Remove _ _ => False | _ => True end →
  constructed w → perform o w = (r, w') →
  constructed w' ∧ inventory_of w' = inventory_of w.
Proof.
  intros Ho Hc. destruct o as [| |name|threshold| |filepath|]; try done;
    unfold perform, bind.
  - rewrite get_qty_run. by intros [= <- <-].
  - rewrite check_low_items_run.
    destruct (as_int threshold) as [t|]; [|by intros [= <- <-]].
    by case_bool_decide; intros [= <- <-].
  - rewrite as_dict_run. intros [= <- <-].
    split; [by apply constructed_put|by apply inventory_of_new_object].
  - rewrite save_data_run.
    by destruct (dumpable (inventory_of w)); intros [= <- <-].
  - rewrite print_data_run.
    destruct (print_items _) as [lines o]. by intros [= <- <-].
Qed.

Lemma perform_keeps_invariant (o : op) (w w' : world) (r : outcome unit) :
  constructed w → store_invariant (inventory_of w) →
  perform o w = (r, w') →
  constructed w' ∧ store_invariant (inventory_of w').
Proof.
  intros Hc Hinv.
  destruct o as [name qty|name qty| | | | |];
    try (intros [? Heq]%perform_reading; [by rewrite Heq|done..]).
  - simpl. rewrite add_item_run.
    destruct (as_str name) as [n|]; [|by intros [= <- <-]].
    case_bool_decide as Hn; [by intros [= <- <-]|].
    destruct (as_int qty) as [q|]; [|by intros [= <- <-]].
    case_bool_decide as Hq; [by intros [= <- <-]|].
    intros [= <- <-]. split; [by apply constructed_put|].
    rewrite inventory_of_put. apply store_invariant_insert; [done..|].
    simpl. unfold quantity.
    destruct (inventory_of w !! n) as [v|] eqn:Hv; simpl; [|lia].
    apply Hinv in Hv as [_ Hv]. lia.
  - simpl. rewrite remove_item_run.
    destruct (as_int qty) as [q|]; [|by intros [= <- <-]].
    case_bool_decide as Hq; [by intros [= <- <-]|].
    destruct (inventory_of w !! name) as [cur|] eqn:Hcur;
      [|by intros [= <- <-]].
    case_bool_decide as Hlt; [by intros [= <- <-]|].
    intros [= <- <-]. split; [by apply constructed_put|].
    rewrite inventory_of_put. case_bool_decide as Hz.
    + by apply store_invariant_delete.
    + apply store_invariant_insert; [done| |simpl; lia].
      by apply Hinv in Hcur as [? _].
Qed.

(** X14. From a constructed store whose keys are non-empty and whose
    quantities are greater than 0, no sequence of calls of [add_item],
    [remove_item], [get_qty], [check_low_items], [as_dict], [save_data] and
    [print_data], with any arguments and with exceptions caught, leads to a
    store with an empty key or a quantity that is not greater than 0; in
    particular [get_qty] never gives a negative number there. *)
Theorem run_ops_keeps_invariant (ops : list op) (w : world) :
  constructed w → store_invariant (inventory_of w) →
  constructed (run_ops ops w).2 ∧
  store_invariant (inventory_of (run_ops ops w).2) ∧
  ∀ n, 0 ≤ quantity (run_ops ops w).2 n.
Proof.
  intros Hc Hinv.
  assert (constructed (run_ops ops w).2 ∧
          store_invariant (inventory_of (run_ops ops w).2)) as [Hc' Hinv'].
  { revert w Hc Hinv. induction ops as [|o ops IH]; intros w Hc Hinv; [done|].
    simpl. destruct (perform o w) as [r w1] eqn:Ho.
    destruct (perform_keeps_invariant o w w1 r Hc Hinv Ho) as [Hc1 Hinv1].
    specialize (IH w1 Hc1 Hinv1).
    destruct r; [|done]. by destruct (run_ops ops w1). }
  split_and!; try done.
  intros n. unfold quantity.
  destruct (inventory_of (run_ops ops w).2 !! n) as [v|] eqn:Hv; simpl; [|done].
  apply Hinv' in Hv as [_ Hv]. lia.
Qed.

Lemma run_ops_keeps_invariant_witness :
  0 ≤ quantity
        (run_ops [Add (PyStr "a") (PyInt (Int 3));
                  Remove "a" (PyInt (Int 5));
                  Remove "x" (PyInt (Int 5));
                  AsDict; Print] store_x5).2 "a".
Proof.
  apply run_ops_keeps_invariant.
  - vm_compute. eexists. reflexivity.
  - replace (inventory_of store_x5) with (<["x" := Int 5]> (∅ : dict))
      by (vm_compute; reflexivity).
    apply store_invariant_insert; [apply store_invariant_empty|done|done].
Defined.

Lemma perform_balance (o : op) (w w' : world) (r : outcome unit) (n : string) :
  constructed w → perform o w = (r, w') →
  constructed w' ∧
  quantity w' n =
    quantity w n + match r with Return _ => delta n o | Raise _ => 0 end.
Proof.
  intros Hc.
  destruct o as [name qty|name qty| | | | |];
    try (intros [? Heq]%perform_reading; [|done..]; split; [done|];
         unfold quantity; rewrite Heq; destruct r; simpl; lia).
  - simpl. rewrite add_item_run.
    destruct (as_str name) as [m|] eqn:Hname;
      [|intros [= <- <-]; split; [done|lia]].
    destruct name; try discriminate. simpl in Hname. simplify_eq.
    case_bool_decide as Hn; [intros [= <- <-]; split; [done|lia]|].
    destruct (as_int qty) as [q|] eqn:Hqty;
      [|intros [= <- <-]; split; [done|lia]].
    destruct qty; try discriminate. simpl in Hqty. simplify_eq.
    case_bool_decide as Hq; [intros [= <- <-]; split; [done|lia]|].
    intros [= <- <-]. split; [by apply constructed_put|].
    rewrite quantity_put.
    case_bool_decide as Hmn.
    + subst. by rewrite lookup_insert_eq.
    + rewrite lookup_insert_ne by done. unfold quantity. lia.
  - simpl. rewrite remove_item_run.
    destruct (as_int qty) as [q|] eqn:Hqty;
      [|intros [= <- <-]; split; [done|lia]].
    destruct qty; try discriminate. simpl in Hqty. simplify_eq.
    case_bool_decide as Hq; [intros [= <- <-]; split; [done|lia]|].
    destruct (inventory_of w !! name) as [cur|] eqn:Hcur;
      [|intros [= <- <-]; split; [done|lia]].
    case_bool_decide as Hlt; [intros [= <- <-]; split; [done|lia]|].
    intros [= <- <-]. split; [by apply constructed_put|].
    rewrite quantity_put. unfold quantity.
    destruct (decide (name = n)) as [->|Hne].
    + rewrite (bool_decide_eq_true_2 (n = n)) by done. rewrite Hcur.
      case_bool_decide as Hz.
      * rewrite lookup_delete_eq. simpl. lia.
      * rewrite lookup_insert_eq. simpl. lia.
    + rewrite (bool_decide_eq_false_2 (name = n)) by done.
      case_bool_decide as Hz.
      * rewrite lookup_delete_ne by done. lia.
      * rewrite lookup_insert_ne by done. lia.
Qed.

(** X15. The quantity of an item is the quantity it had plus what the calls
    that returned added to it and minus what they removed from it: calls
    that raised, calls on other items and the reading calls count for
    nothing. *)
Theorem run_ops_balance (ops : list op) (w : world) (n : string) :
  constructed w →
  quantity (run_ops ops w).2 n =
    quantity w n + total_delta n (run_ops ops w).1.
Proof.
  revert w. induction ops as [|o ops IH]; intros w Hc; simpl; [lia|].
  destruct (perform o w) as [r w1] eqn:Ho.
  destruct (perform_balance o w w1 r n Hc Ho) as [Hc1 Hq].
  specialize (IH w1 Hc1).
  destruct r as [[]|e].
  - destruct (run_ops ops w1) as [returned w2]. simpl in *. lia.
  - lia.
Qed.

Lemma run_ops_balance_witness :
  quantity
    (run_ops [Add (PyStr "x") (PyInt (Int 3)); Remove "x" (PyInt (Int 50));
              Remove "x" (PyInt (Int 2))] store_x5).2 "x" =
  quantity store_x5 "x" +
  total_delta "x"
    (run_ops [Add (PyStr "x") (PyInt (Int 3)); Remove "x" (PyInt (Int 50));
              Remove "x" (PyInt (Int 2))] store_x5).1.
Proof.
  apply run_ops_balance. vm_compute. eexists. reflexivity.
Defined.

Lemma perform_files (o : op) (w w' : world) (r : outcome unit)
    (filepath : string) :
  (∀ q, o = Save q → q ≠ filepath) →
  perform o w = (r, w') →
  files w' !! filepath = files w !! filepath.
Proof.
  intros Hsave.
  destruct o as [name qty|name qty|name|threshold| |q|]; unfold perform, bind.
  - rewrite add_item_run.
    destruct (as_str name) as [n|]; [|by intros [= <- <-]].
    case_bool_decide; [by intros [= <- <-]|].
    destruct (as_int qty) as [i|]; [|by intros [= <- <-]].
    by case_bool_decide; intros [= <- <-].
  - rewrite remove_item_run.
    destruct (as_int qty) as [i|]; [|by intros [= <- <-]].
    case_bool_decide; [by intros [= <- <-]|].
    destruct (inventory_of w !! name) as [cur|]; [|by intros [= <- <-]].
    by case_bool_decide; intros [= <- <-].
  - rewrite get_qty_run. by intros [= <- <-].
  - rewrite check_low_items_run.
    destruct (as_int threshold) as [t|]; [|by intros [= <- <-]].
    by case_bool_decide; intros [= <- <-].
  - rewrite as_dict_run. by intros [= <- <-].
  - rewrite save_data_run.
    destruct (dumpable (inventory_of w)); intros [= <- <-];
      unfold set_files; cbn [files];
      (rewrite lookup_insert_ne; [done|]; by apply Hsave).
  - rewrite print_data_run.
    destruct (print_items _) as [lines o]. by intros [= <- <-].
Qed.

Lemma run_ops_files (ops : list op) (w : world) (filepath : string) :
  (∀ q, Save q ∈ ops → q ≠ filepath) →
  files (run_ops ops w).2 !! filepath = files w !! filepath.
Proof.
  revert w. induction ops as [|o ops IH]; intros w Hsave; [done|].
  simpl. destruct (perform o w) as [r w1] eqn:Ho.
  assert (files w1 !! filepath = files w !! filepath) as <-.
  { eapply perform_files; [|done]. intros q ->. apply Hsave. left. }
  assert (∀ q, Save q ∈ ops → q ≠ filepath) as Hrest.
  { intros q Hq. apply Hsave. by right. }
  specialize (IH w1 Hrest).
  destruct r; [|done]. by destruct (run_ops ops w1).
Qed.

Section checkpoint.

Variable literal_eval : string → outcome value.

(** X16. A saved file is a checkpoint: after a [save_data(p)] that
    returned, whatever calls of [add_item], [remove_item], [get_qty],
    [check_low_items], [as_dict] and [print_data] follow, [load_data(p)]
    returns and gives the store the mapping it had when it was saved. *)
Theorem save_data_is_a_checkpoint
    (w w1 : world) (filepath : string) (ops : list op) :
  save_data filepath w = (Return tt, w1) →
  (∀ q, Save q ∉ ops) →
  ∃ w',
    load_data literal_eval filepath (run_ops ops w1).2 = (Return tt, w') ∧
    inventory_of w' = inventory_of w.
Proof.
  rewrite save_data_run.
  destruct (dumpable (inventory_of w)); [|done].
  intros [= <-] Hsave. apply load_dumped.
  rewrite run_ops_files by (intros q Hq; by apply Hsave in Hq).
  unfold set_files. cbn [files]. by rewrite lookup_insert_eq.
Qed.

End checkpoint.

Lemma save_data_is_a_checkpoint_witness :
  ∃ w',
    load_data literal_eval_decimal "inventory.json"
      (run_ops [Remove "x" (PyInt (Int 5)); Add (PyStr "y") (PyInt (Int 1));
                Print]
         (save_data "inventory.json" store_x5).2).2 = (Return tt, w') ∧
    inventory_of w' = inventory_of store_x5.
Proof.
  apply (save_data_is_a_checkpoint literal_eval_decimal store_x5).
  - vm_compute. reflexivity.
  - intros q Hq.
    repeat (apply elem_of_cons in Hq as [Hq|Hq]; [discriminate Hq|]).
    by apply elem_of_nil in Hq.
Defined.

Section reload.

Variable literal_eval : string → outcome value.

(** X12. Loading the same file again changes nothing more: after a
    [load_data] that returned, a second [load_data] of that file returns
    and the store holds the same mapping. *)
Theorem load_data_twice (w w' : world) (filepath : string) :
  load_data literal_eval filepath w = (Return tt, w') →
  ∃ w'', load_data literal_eval filepath w' = (Return tt, w'') ∧
         inventory_of w'' = inventory_of w'.
Proof.
  intros (doc & items & d & Hf & Hdoc & Hn & ->)%load_data_returns.
  rewrite load_data_run.
  replace (files (set_self (put w (fresh_loc (heap w)) d)
                    (fresh_loc (heap w))) !! filepath)
    with (files w !! filepath) by done.
  rewrite Hf, Hdoc, load_parsed_normalize, Hn.
  eexists. split; [done|].
  by rewrite !inventory_of_set_self, !look_put_eq.
Qed.

End reload.

Lemma load_data_twice_witness :
  ∃ w'', load_data literal_eval_decimal "inventory.json"
           (load_data literal_eval_decimal "inventory.json"
              (with_file (JObject [("y", JString "7")]))).2 = (Return tt, w'') ∧
         inventory_of w'' =
           inventory_of
             (load_data literal_eval_decimal "inventory.json"
                (with_file (JObject [("y", JString "7")]))).2.
Proof.
  apply (load_data_twice literal_eval_decimal
           (with_file (JObject [("y", JString "7")]))).
  vm_compute. reflexivity.
Defined.

(** X17. An entry stored with quantity 0, as a load can leave one, is not
    the same as no entry: [get_qty] gives 0 as for an absent name, but
    [remove_item] with a positive quantity raises
    [ValueError("not enough quantity to remove")] and not [KeyError],
    [check_low_items(0)] lists the name, and the copy of [as_dict] has the
    entry. *)
Theorem zero_entry_is_not_absent (w : world) (n : string) (v q : int_obj) :
  inventory_of w !! n = Some v → int_value v = 0 → 0 < int_value q →
  get_qty n w = (Return 0, w) ∧
  remove_item n (PyInt q) w =
    (Raise (ValueError "not enough quantity to remove"), w) ∧
  (∃ names, check_low_items (PyInt (Int 0)) w = (Return names, w) ∧
            n ∈ names) ∧
  (∃ l w', as_dict w = (Return l, w') ∧ look w' l !! n = Some v).
Proof.
  intros Hn Hv Hq. split_and!.
  - rewrite get_qty_run. unfold quantity. rewrite Hn. simpl. by rewrite Hv.
  - rewrite remove_item_run. simpl.
    rewrite bool_decide_eq_false_2 by lia. rewrite Hn.
    by rewrite bool_decide_eq_true_2 by lia.
  - rewrite check_low_items_run. simpl. eexists. split; [done|].
    apply elem_of_low_items. exists v. split; [done|lia].
  - rewrite as_dict_run. eexists _, _. split; [done|].
    by rewrite look_put_eq.
Qed.

Lemma zero_entry_is_not_absent_witness :
  remove_item "x" (PyInt (Int 1))
    (load_data literal_eval_decimal "inventory.json"
       (with_file (JObject [("x", JInt 0)]))).2 =
  (Raise (ValueError "not enough quantity to remove"),
   (load_data literal_eval_decimal "inventory.json"
      (with_file (JObject [("x", JInt 0)]))).2).
Proof.
  apply (zero_entry_is_not_absent _ "x" (Int 0) (Int 1)).
  - vm_compute. reflexivity.
  - reflexivity.
  - reflexivity.
Defined.

(** *** Saving beyond the digit limit *)


